(** * Land Records backend: the application workflow of [index.js]

    A shallow embedding of the Express handlers of
    [BackendAPIService(Node.js/Express)/index.js].  The in-memory arrays of
    the module ([users], [plots], [applications], [notifications],
    [payments], [documents]) form one explicit [Store]; every handler is a
    function from a store to a new store and the response it sends.
    Values produced by [uuidv4()] and [new Date()] are inputs of the
    handler that draws them. *)

From Stdlib Require Import String List ZArith Bool Arith Lia.
Import ListNotations.
Local Open Scope string_scope.
Local Open Scope list_scope.

(** ** JavaScript values as they arrive in a parsed JSON body *)

Module Js.

#[local] Unset Elimination Schemes.

Inductive value : Type :=
| Undefined
| Null
| Bool (b : bool)
| Num (n : Z)
| Str (s : string)
| Arr (items : list value)
| Obj (props : list (string * value)).

#[local] Set Elimination Schemes.

(** [!v] is [negb (truthy v)].  Numbers carry an integer payload: the
    handlers only look at the type tag of a number and at whether it is
    zero. *)
Definition truthy (v : value) : bool :=
  match v with
  | Undefined | Null => false
  | Bool b => b
  | Num n => negb (n =? 0)%Z
  | Str s => negb (s =? "")
  | Arr _ | Obj _ => true
  end.

Definition typeof (v : value) : string :=
  match v with
  | Undefined => "undefined"
  | Null => "object"
  | Bool _ => "boolean"
  | Num _ => "number"
  | Str _ => "string"
  | Arr _ | Obj _ => "object"
  end.

(** [a === b].  Arrays and objects are compared by reference; the two
    sides of every comparison in the handlers come from different
    requests (or from a module literal), hence are never the same
    object. *)
Definition strict_eq (a b : value) : bool :=
  match a, b with
  | Undefined, Undefined => true
  | Null, Null => true
  | Bool x, Bool y => Bool.eqb x y
  | Num x, Num y => (x =? y)%Z
  | Str x, Str y => (x =? y)
  | _, _ => false
  end.

(** [a || b] *)
Definition or (a b : value) : value := if truthy a then a else b.

(** Property read [v.k], as done by the destructuring of [req.body]. *)
Definition get (v : value) (k : string) : value :=
  match v with
  | Obj props =>
      match find (fun kv => fst kv =? k) props with
      | Some kv => snd kv
      | None => Undefined
      end
  | _ => Undefined
  end.

(** [l.includes(v)] for an array literal of strings. *)
Definition includes (l : list string) (v : value) : bool :=
  existsb (fun s => strict_eq (Str s) v) l.

(** Whether the string conversion of a template literal, [`${v}`],
    throws a TypeError.  Primitives always convert.  A parsed object
    converts through the inherited [toString] unless it has an own
    property of that name: the own value is data, never callable, and
    [valueOf] then yields no primitive either.  An array converts by
    joining the conversions of its elements. *)
Fixpoint to_string_throws (v : value) : bool :=
  match v with
  | Arr items => existsb to_string_throws items
  | Obj props => existsb (fun kv => fst kv =? "toString") props
  | _ => false
  end.

End Js.

(** ** Arrays of objects: lookup by reference and in-place mutation *)

Section Arrays.
Context {A : Type}.

(** [l.find(p)]: the first element satisfying [p], together with its
    position, which stands for the reference JavaScript returns. *)
Fixpoint find_ref (p : A -> bool) (l : list A) : option (nat * A) :=
  match l with
  | [] => None
  | x :: r =>
      if p x then Some (0, x)
      else match find_ref p r with
           | Some (i, y) => Some (S i, y)
           | None => None
           end
  end.

(** Assignment through a reference: the object at position [i] is
    replaced by [f] of itself, every other element is untouched. *)
Fixpoint mutate (i : nat) (f : A -> A) (l : list A) : list A :=
  match l, i with
  | [], _ => []
  | x :: r, 0 => f x :: r
  | x :: r, S j => x :: mutate j f r
  end.

(** [l.filter(p)] for a callback that may throw ([None]): the callback
    runs on the elements in order, and the first exception ends the
    traversal. *)
Fixpoint try_filter (p : A -> option bool) (l : list A) : option (list A) :=
  match l with
  | [] => Some []
  | x :: r =>
      match p x with
      | None => None
      | Some b =>
          match try_filter p r with
          | None => None
          | Some r' => Some (if b then x :: r' else r')
          end
      end
  end.

End Arrays.

(** ** Records of the in-memory stores *)

Module User.
Record t := mk {
  id : string;
  name : Js.value;
  email : Js.value;
  password : Js.value;
  role : string;
  language : Js.value }.

(** [user.language = l] *)
Definition set_language (l : Js.value) (u : t) : t :=
  mk (id u) (name u) (email u) (password u) (role u) l.
End User.

Module Plot.
(** Coordinates in units of 1e-4 degree. *)
Record LatLng := { lat : Z; lng : Z }.
Record t := mk {
  plotId : string;
  location : LatLng;
  area : Z;
  type : string;
  currentOwnerEmail : string;
  status : string;
  boundaries : list LatLng }.
End Plot.

Module HistoryEntry.
(** [{ by, at, status, remarks }] *)
Record t := mk {
  by_ : string;
  at_ : Z;
  status : Js.value;
  remarks : Js.value }.
End HistoryEntry.

Module Application.
Record t := mk {
  id : string;
  applicationType : Js.value;
  applicant : Js.value;
  applicantEmail : Js.value;
  plotId : Js.value;
  applicationStatus : Js.value;
  date : Z;
  documents : Js.value;
  reason : Js.value;
  officerAssigned : Js.value;
  paymentStatus : string;
  history : list HistoryEntry.t }.

(** [app.applicationStatus = s] *)
Definition set_applicationStatus (s : Js.value) (a : t) : t :=
  mk (id a) (applicationType a) (applicant a) (applicantEmail a) (plotId a)
     s (date a) (documents a) (reason a) (officerAssigned a)
     (paymentStatus a) (history a).

(** [app.paymentStatus = s] *)
Definition set_paymentStatus (s : string) (a : t) : t :=
  mk (id a) (applicationType a) (applicant a) (applicantEmail a) (plotId a)
     (applicationStatus a) (date a) (documents a) (reason a)
     (officerAssigned a) s (history a).

(** [app.history.push(h)] *)
Definition push_history (h : HistoryEntry.t) (a : t) : t :=
  mk (id a) (applicationType a) (applicant a) (applicantEmail a) (plotId a)
     (applicationStatus a) (date a) (documents a) (reason a)
     (officerAssigned a) (paymentStatus a) (history a ++ [h]).

(** The fields fixed at creation. *)
Definition created_with (a : t) : Js.value * Js.value * Js.value * Js.value :=
  (applicationType a, applicantEmail a, plotId a, documents a).
End Application.

(** A notification message: a literal, or a template literal
    [`prefix${arg}`] kept with its interpolated value. *)
Inductive Message : Type :=
| Lit (text : string)
| Template (prefix : string) (arg : Js.value).

Module Notification.
Record t := mk {
  id : string;
  toUserId : string;
  message : Message;
  ts : Z }.
End Notification.

Module Payment.
Record t := mk {
  id : string;
  applicationId : Js.value;
  amount : Js.value;
  status : string;
  paidBy : Js.value;
  date : Z }.
End Payment.

Module Document.
Record t := mk {
  id : string;
  fileName : string;
  mimetype : string;
  size : Z;
  data : string;
  uploadedBy : Js.value;
  uploadedAt : Z }.
End Document.

(** ** The store *)

Record Store := mkStore {
  users : list User.t;
  plots : list Plot.t;
  applications : list Application.t;
  notifications : list Notification.t;
  payments : list Payment.t;
  documents : list Document.t }.

Definition with_users (v : list User.t) (st : Store) : Store :=
  mkStore v (plots st) (applications st) (notifications st) (payments st)
          (documents st).

Definition with_applications (v : list Application.t) (st : Store) : Store :=
  mkStore (users st) (plots st) v (notifications st) (payments st)
          (documents st).

Definition with_notifications (v : list Notification.t) (st : Store) : Store :=
  mkStore (users st) (plots st) (applications st) v (payments st)
          (documents st).

Definition with_payments (v : list Payment.t) (st : Store) : Store :=
  mkStore (users st) (plots st) (applications st) (notifications st) v
          (documents st).

Definition with_documents (v : list Document.t) (st : Store) : Store :=
  mkStore (users st) (plots st) (applications st) (notifications st)
          (payments st) v.

(** The module-level literals.  The three seed users get their ids from
    [uuidv4()] when the module is loaded. *)
Definition DEMO_OFFICER_EMAIL := "officer@gov.in".
Definition DEMO_ADMIN_EMAIL := "admin@gov.in".

Definition seed_users (id1 id2 id3 : string) : list User.t :=
  [ User.mk id1 (Js.Str "Demo Citizen") (Js.Str "citizen@example.com")
            (Js.Str "citizenpass") "citizen" (Js.Str "en");
    User.mk id2 (Js.Str "Land Officer") (Js.Str DEMO_OFFICER_EMAIL)
            (Js.Str "officerpass") "officer" (Js.Str "en");
    User.mk id3 (Js.Str "System Admin") (Js.Str DEMO_ADMIN_EMAIL)
            (Js.Str "adminpass") "admin" (Js.Str "en") ].

Definition seed_plots : list Plot.t :=
  [ Plot.mk "PLOT123" {| Plot.lat := 287041; Plot.lng := 771025 |} 1000
            "agricultural" "citizen@example.com" "active"
            [ {| Plot.lat := 287041; Plot.lng := 771025 |};
              {| Plot.lat := 287051; Plot.lng := 771125 |};
              {| Plot.lat := 287061; Plot.lng := 771090 |} ] ].

Definition initial_store (id1 id2 id3 : string) : Store :=
  mkStore (seed_users id1 id2 id3) seed_plots [] [] [] [].

(** ** Requests and responses *)

(** The payload [jwt.sign] puts in a token at login,
    [{ id: user.id, role: user.role, email: user.email }], which
    [jwt.verify] hands back as [req.user].  It has no [name]. *)
Module Payload.
Record t := mk {
  id : string;
  role : string;
  email : Js.value }.
End Payload.

(** The [Authorization] header as [authorizeRoles] sees it: absent,
    rejected by [jwt.verify], or verified with its payload. *)
Inductive Authorization : Type :=
| NoHeader
| BadToken
| Bearer (payload : Payload.t).

(** What one request draws from [uuidv4()] and [new Date()], in call
    order: first the record the handler builds, then the notification
    built by [sendNotification]. *)
Record Fresh := mkFresh {
  uuid1 : string;
  date1 : Z;
  uuid2 : string;
  date2 : Z }.

(** The file [multer] leaves in [req.file]. *)
Record Upload := mkUpload {
  originalname : string;
  mimetype : string;
  size : Z;
  buffer : string }.

Inductive Body : Type :=
| ErrorBody (error : string)
| MessageBody (message : string)
| LoginBody (token : Payload.t) (role : string) (language name : Js.value)
| ProfileBody (id : string) (name email : Js.value) (role : string)
              (language : Js.value)
| PlotsBody (ps : list Plot.t)
| PlotBody (p : Plot.t)
| DocumentBody (documentId : string)
| LanguageBody (message : string) (language : Js.value)
| ApplicationBody (app : Application.t)
| ApplicationsBody (apps : list Application.t)
| PaymentBody (paymentId status : string)
| NotificationsBody (ns : list Notification.t).

Inductive Exception : Type :=
| TypeError.

(** [Json c b] is [res.status(c).json(b)] ([c = 200] for a bare
    [res.json]); [Uncaught e] is an exception leaving the handler before
    any response was sent, which Express answers with a 500. *)
Inductive Response : Type :=
| Json (status : nat) (body : Body)
| Uncaught (e : Exception).

Definition Handler : Type := Store -> Store * Response.

(** ** Helpers of [index.js] *)

(** The part of the middleware after [jwt.verify]: the role gate. *)
Definition authorizeRoles (allowedRoles : list string)
    (next : Payload.t -> Handler) (auth : Authorization) : Handler :=
  fun st =>
    match auth with
    | NoHeader => (st, Json 401 (ErrorBody "Missing token"))
    | BadToken => (st, Json 401 (ErrorBody "Invalid or expired token"))
    | Bearer user =>
        if negb (Js.includes allowedRoles (Js.Str (Payload.role user)))
        then (st, Json 403 (ErrorBody "Access denied"))
        else next user st
    end.

Definition sendNotification (id : string) (ts : Z) (toUserId : string)
    (message : Message) (st : Store) : Store :=
  with_notifications
    (notifications st ++ [Notification.mk id toUserId message ts]) st.

(** ** Auth *)

Definition post_api_register (f : Fresh) (body : Js.value) : Handler :=
  fun st =>
    let name := Js.get body "name" in
    let email := Js.get body "email" in
    let password := Js.get body "password" in
    let language := Js.get body "language" in
    if negb (Js.truthy name) || negb (Js.truthy email)
       || negb (Js.truthy password)
    then (st, Json 400 (ErrorBody "Missing required fields"))
    else if existsb (fun u => Js.strict_eq (User.email u) email) (users st)
    then (st, Json 409 (ErrorBody "User already exists"))
    else
      let user := User.mk (uuid1 f) name email password "citizen"
                          (Js.or language (Js.Str "en")) in
      let st1 := with_users (users st ++ [user]) st in
      let st2 := sendNotification (uuid2 f) (date2 f) (User.id user)
                   (Lit "Registration successful. Welcome!") st1 in
      (st2, Json 201 (MessageBody "Registration successful")).

Definition post_api_login (body : Js.value) : Handler :=
  fun st =>
    let email := Js.get body "email" in
    let password := Js.get body "password" in
    match find (fun u => Js.strict_eq (User.email u) email
                         && Js.strict_eq (User.password u) password)
               (users st) with
    | None => (st, Json 401 (ErrorBody "Invalid credentials"))
    | Some user =>
        let token := Payload.mk (User.id user) (User.role user)
                                (User.email user) in
        (st, Json 200 (LoginBody token (User.role user)
                                 (User.language user) (User.name user)))
    end.

(** ** User profile *)

Definition get_api_me : Authorization -> Handler :=
  authorizeRoles ["citizen"; "officer"; "admin"] (fun requser st =>
    match find (fun u => User.id u =? Payload.id requser) (users st) with
    | None => (st, Json 404 (ErrorBody "User not found"))
    | Some user =>
        (st, Json 200 (ProfileBody (User.id user) (User.name user)
                         (User.email user) (User.role user)
                         (User.language user)))
    end).

(** ** Land plots *)

(** [ownerEmail] is [req.query.ownerEmail]. *)
Definition get_api_plots (ownerEmail : Js.value) : Authorization -> Handler :=
  authorizeRoles ["citizen"; "officer"; "admin"] (fun _ st =>
    let filtered :=
      if Js.truthy ownerEmail
      then filter (fun p => Js.strict_eq (Js.Str (Plot.currentOwnerEmail p))
                                         ownerEmail)
                  (plots st)
      else plots st in
    (st, Json 200 (PlotsBody filtered))).

Definition get_api_plots_plotId (plotId : string) : Authorization -> Handler :=
  authorizeRoles ["citizen"; "officer"; "admin"] (fun _ st =>
    match find (fun p => Plot.plotId p =? plotId) (plots st) with
    | None => (st, Json 404 (ErrorBody "Plot not found"))
    | Some p => (st, Json 200 (PlotBody p))
    end).

(** ** Applications *)

Definition get_api_applications : Authorization -> Handler :=
  authorizeRoles ["citizen"; "officer"; "admin"] (fun user st =>
    if Payload.role user =? "citizen"
    then (st, Json 200 (ApplicationsBody
           (filter (fun a => Js.strict_eq (Application.applicantEmail a)
                                          (Payload.email user))
                   (applications st))))
    else (st, Json 200 (ApplicationsBody (applications st)))).

Definition post_api_applications (f : Fresh) (body : Js.value)
    : Authorization -> Handler :=
  authorizeRoles ["citizen"] (fun user st =>
    let applicationType := Js.get body "applicationType" in
    let plotId := Js.get body "plotId" in
    let docLinks := Js.get body "documents" in
    let reason := Js.get body "reason" in
    if negb (Js.truthy applicationType) || negb (Js.truthy plotId)
       || negb (Js.truthy docLinks)
    then (st, Json 400 (ErrorBody "Missing fields"))
    else if negb (Js.includes ["mutation"; "correction"; "conversion"]
                              applicationType)
    then (st, Json 400 (ErrorBody "Invalid application type"))
    else
      match find (fun p =>
                    Js.strict_eq (Js.Str (Plot.plotId p)) plotId
                    && Js.strict_eq (Js.Str (Plot.currentOwnerEmail p))
                                    (Payload.email user))
                 (plots st) with
      | None => (st, Json 400 (ErrorBody "Plot does not belong to you"))
      | Some plot =>
          let app := {|
            Application.id := uuid1 f;
            Application.applicationType := applicationType;
            Application.applicant := Js.Undefined;
            Application.applicantEmail := Payload.email user;
            Application.plotId := plotId;
            Application.applicationStatus := Js.Str "submitted";
            Application.date := date1 f;
            Application.documents := docLinks;
            Application.reason := Js.or reason Js.Null;
            Application.officerAssigned := Js.Null;
            Application.paymentStatus := "pending";
            Application.history := [] |} in
          let st1 := with_applications (applications st ++ [app]) st in
          let st2 := sendNotification (uuid2 f) (date2 f) (Payload.id user)
                       (Lit "Application submitted successfully. Please complete payment.")
                       st1 in
          (st2, Json 201 (ApplicationBody app))
      end).

(** [appId] is the route parameter [req.params.id].  The history array is
    created with the application and an array is truthy, so the guard
    [if (!app.history) app.history = []] never fires.  The user lookup
    and the template literal are the arguments of [sendNotification],
    evaluated in this order before the call: when the lookup finds
    nobody, reading [.id] throws, and when the status has no string
    conversion the template literal throws, in both cases after the
    application has been assigned to and before any notification is
    stored. *)
Definition post_api_applications_id_status (f : Fresh) (appId : string)
    (body : Js.value) : Authorization -> Handler :=
  authorizeRoles ["officer"; "admin"] (fun user st =>
    let status := Js.get body "status" in
    let remarks := Js.get body "remarks" in
    match find_ref (fun a => Application.id a =? appId) (applications st) with
    | None => (st, Json 404 (ErrorBody "Not found"))
    | Some (ref, app) =>
        let entry := HistoryEntry.mk (Payload.role user) (date1 f) status
                                     remarks in
        let assign a := Application.push_history entry
                          (Application.set_applicationStatus status a) in
        let st1 := with_applications (mutate ref assign (applications st)) st in
        match find (fun u => Js.strict_eq (User.email u)
                                          (Application.applicantEmail app))
                   (users st1) with
        | None => (st1, Uncaught TypeError)
        | Some u =>
            if Js.to_string_throws status
            then (st1, Uncaught TypeError)
            else
              let st2 := sendNotification (uuid2 f) (date2 f) (User.id u)
                           (Template "Application status updated to: " status)
                           st1 in
              (st2, Json 200 (ApplicationBody (assign app)))
        end
    end).

(** ** Document upload *)

Definition post_api_documents_upload (f : Fresh) (file : option Upload)
    : Authorization -> Handler :=
  authorizeRoles ["citizen"; "officer"; "admin"] (fun user st =>
    match file with
    | None => (st, Json 400 (ErrorBody "No file uploaded"))
    | Some file =>
        let docId := uuid1 f in
        let st1 := with_documents
                     (documents st ++
                      [ {| Document.id := docId;
                           Document.fileName := originalname file;
                           Document.mimetype := mimetype file;
                           Document.size := size file;
                           Document.data := buffer file;
                           Document.uploadedBy := Payload.email user;
                           Document.uploadedAt := date1 f |} ]) st in
        let st2 := sendNotification (uuid2 f) (date2 f) (Payload.id user)
                     (Lit "Document uploaded successfully") st1 in
        (st2, Json 200 (DocumentBody docId))
    end).

(** ** Payments *)

(** The template literal of the notification interpolates
    [applicationId] after the lookup has found an application whose id,
    a string, is [===] to it: it is a string there, and its conversion
    cannot throw. *)
Definition post_api_payments_initiate (f : Fresh) (body : Js.value)
    : Authorization -> Handler :=
  authorizeRoles ["citizen"] (fun user st =>
    let applicationId := Js.get body "applicationId" in
    let amount := Js.get body "amount" in
    if negb (Js.truthy applicationId)
       || negb (Js.typeof amount =? "number")
    then (st, Json 400 (ErrorBody "Missing or invalid payment details"))
    else
      match find_ref (fun a =>
                        Js.strict_eq (Js.Str (Application.id a)) applicationId
                        && Js.strict_eq (Application.applicantEmail a)
                                        (Payload.email user))
                     (applications st) with
      | None => (st, Json 404 (ErrorBody "Application not found"))
      | Some (ref, app) =>
          if Application.paymentStatus app =? "completed"
          then (st, Json 409 (ErrorBody "Already paid"))
          else
            let paymentId := uuid1 f in
            let st1 := with_payments
                         (payments st ++
                          [ {| Payment.id := paymentId;
                               Payment.applicationId := applicationId;
                               Payment.amount := amount;
                               Payment.status := "initiated";
                               Payment.paidBy := Payload.email user;
                               Payment.date := date1 f |} ]) st in
            let st2 := with_applications
                         (mutate ref (Application.set_paymentStatus "completed")
                                 (applications st1)) st1 in
            let st3 := sendNotification (uuid2 f) (date2 f) (Payload.id user)
                         (Template "Payment successful for application: "
                                   applicationId) st2 in
            (st3, Json 200 (PaymentBody paymentId "completed"))
      end).

(** ** Notifications *)

(** [user.id] is read inside the [filter] callback, once per stored
    notification: with [user] undefined the callback throws. *)
Definition get_api_notifications : Authorization -> Handler :=
  authorizeRoles ["citizen"; "officer"; "admin"] (fun requser st =>
    let user := find (fun u => User.id u =? Payload.id requser) (users st) in
    match try_filter
            (fun n => match user with
                      | Some u => Some (Notification.toUserId n =? User.id u)
                      | None => None
                      end)
            (notifications st) with
    | Some ns => (st, Json 200 (NotificationsBody ns))
    | None => (st, Uncaught TypeError)
    end).

(** ** Sample data reset *)

Definition post_api_sample_reset : Authorization -> Handler :=
  authorizeRoles ["admin"] (fun _ st =>
    (mkStore (firstn 3 (users st)) (firstn 1 (plots st)) [] [] [] [],
     Json 200 (MessageBody "Sample/demo data reset to initial state"))).

(** ** Language switch *)

Definition post_api_user_language (body : Js.value)
    : Authorization -> Handler :=
  authorizeRoles ["citizen"; "officer"; "admin"] (fun requser st =>
    let language := Js.get body "language" in
    if negb (Js.includes ["en"; "hi"] language)
    then (st, Json 400 (ErrorBody "Unsupported lang"))
    else
      match find_ref (fun u => User.id u =? Payload.id requser) (users st) with
      | None => (st, Uncaught TypeError)
      | Some (ref, _) =>
          (with_users (mutate ref (User.set_language language) (users st)) st,
           Json 200 (LanguageBody "Language updated" language))
      end).

(** ** The operations of the workflow engine and their routes *)

Inductive Operation : Type :=
| submitApplication (f : Fresh) (body : Js.value)
| listApplications
| updateApplicationStatus (f : Fresh) (appId : string) (body : Js.value)
| initiateAndCompletePayment (f : Fresh) (body : Js.value)
| listNotificationsForCaller.

Definition route (op : Operation) : Authorization -> Handler :=
  match op with
  | submitApplication f body => post_api_applications f body
  | listApplications => get_api_applications
  | updateApplicationStatus f appId body =>
      post_api_applications_id_status f appId body
  | initiateAndCompletePayment f body => post_api_payments_initiate f body
  | listNotificationsForCaller => get_api_notifications
  end.

(** Requests are served one at a time, each on the store left by the
    previous one. *)
Fixpoint serve (reqs : list (Operation * Authorization)) (st : Store) : Store :=
  match reqs with
  | [] => st
  | (op, auth) :: rest => serve rest (fst (route op auth st))
  end.

(** ** The whole API *)

Inductive Request : Type :=
| POST_register (f : Fresh) (body : Js.value)
| POST_login (body : Js.value)
| GET_me (auth : Authorization)
| GET_plots (ownerEmail : Js.value) (auth : Authorization)
| GET_plot (plotId : string) (auth : Authorization)
| Engine (op : Operation) (auth : Authorization)
| POST_upload (f : Fresh) (file : option Upload) (auth : Authorization)
| POST_sample_reset (auth : Authorization)
| POST_language (body : Js.value) (auth : Authorization).

Definition handle (r : Request) : Handler :=
  match r with
  | POST_register f body => post_api_register f body
  | POST_login body => post_api_login body
  | GET_me auth => get_api_me auth
  | GET_plots ownerEmail auth => get_api_plots ownerEmail auth
  | GET_plot plotId auth => get_api_plots_plotId plotId auth
  | Engine op auth => route op auth
  | POST_upload f file auth => post_api_documents_upload f file auth
  | POST_sample_reset auth => post_api_sample_reset auth
  | POST_language body auth => post_api_user_language body auth
  end.

(** The stores the server can be in: the module-level literals, then any
    number of requests. *)
Inductive reachable : Store -> Prop :=
| reach_start (id1 id2 id3 : string) : reachable (initial_store id1 id2 id3)
| reach_request (st : Store) (r : Request) :
    reachable st -> reachable (fst (handle r st)).

(** * Vocabulary of the properties *)

(** [old] is a prefix of [new]: nothing removed, nothing reordered. *)
Definition extends {A : Type} (new old : list A) : Prop :=
  exists more, new = old ++ more.

Definition recognized_types : list Js.value :=
  [Js.Str "mutation"; Js.Str "correction"; Js.Str "conversion"].


(** The lookup of the payment handler: the application with the given id
    whose applicant is the caller. *)
Definition own_application (applicationId : Js.value) (user : Payload.t)
    : Application.t -> bool :=
  fun a => Js.strict_eq (Js.Str (Application.id a)) applicationId
           && Js.strict_eq (Application.applicantEmail a) (Payload.email user).

(** The only assignments the handlers make to an application. *)
Definition decide (entry : HistoryEntry.t) (status : Js.value)
    (a : Application.t) : Application.t :=
  Application.push_history entry (Application.set_applicationStatus status a).

Inductive app_change (old : list Application.t)
    : list Application.t -> Prop :=
| app_unchanged : app_change old old
| app_created (app : Application.t) : app_change old (old ++ [app])
| app_paid (ref : nat) :
    app_change old (mutate ref (Application.set_paymentStatus "completed") old)
| app_decided (ref : nat) (entry : HistoryEntry.t) (status : Js.value) :
    app_change old (mutate ref (decide entry status) old).

(** The application at each position stays there, keeps its id, and
    its history only grows at the end. *)
Definition history_kept (a' a : Application.t) : Prop :=
  Application.id a' = Application.id a
  /\ extends (Application.history a') (Application.history a).

Definition histories_kept (new old : list Application.t) : Prop :=
  forall i a, nth_error old i = Some a ->
              exists a', nth_error new i = Some a' /\ history_kept a' a.

(** What every reachable store keeps of the seed data: the plot
    registry, the demo citizen at the head of the user store, and that
    citizen as the applicant of every application. *)
Definition demo_citizen_email : Js.value := Js.Str "citizen@example.com".

Definition seeded (st : Store) : Prop :=
  plots st = seed_plots
  /\ hd_error (map User.email (users st)) = Some demo_citizen_email
  /\ Forall (fun a => Application.applicantEmail a = demo_citizen_email)
            (applications st).

(** ** Concrete requests on the seed data, used to run the handlers *)

Module Demo.

Definition store0 : Store := initial_store "uid-1" "uid-2" "uid-3".

Definition citizenA : Payload.t :=
  Payload.mk "uid-1" "citizen" (Js.Str "citizen@example.com").
Definition officer : Payload.t :=
  Payload.mk "uid-2" "officer" (Js.Str DEMO_OFFICER_EMAIL).
Definition admin : Payload.t :=
  Payload.mk "uid-3" "admin" (Js.Str DEMO_ADMIN_EMAIL).

(** A second citizen, as registered through [/api/register]. *)
Definition citizenB_form : Js.value :=
  Js.Obj [("name", Js.Str "Citizen B"); ("email", Js.Str "b@example.com");
          ("password", Js.Str "bpass")].
Definition citizenB : Payload.t :=
  Payload.mk "uid-4" "citizen" (Js.Str "b@example.com").

Definition submission (type plot : string) (docs : list Js.value) : Js.value :=
  Js.Obj [("applicationType", Js.Str type); ("plotId", Js.Str plot);
          ("documents", Js.Arr docs)].

Definition payment (appId : string) (amount : Z) : Js.value :=
  Js.Obj [("applicationId", Js.Str appId); ("amount", Js.Num amount)].

Definition decision (status remarks : string) : Js.value :=
  Js.Obj [("status", Js.Str status); ("remarks", Js.Str remarks)].

Definition fresh (a n : string) (t : Z) : Fresh := mkFresh a t n (t + 1).

(** Citizen A has submitted a mutation request for PLOT123. *)
Definition store1 : Store :=
  fst (post_api_applications (fresh "app-1" "ntf-1" 1000)
         (submission "mutation" "PLOT123" [Js.Str "doc-1"])
         (Bearer citizenA) store0).

(** ... and has paid for it. *)
Definition store2 : Store :=
  fst (post_api_payments_initiate (fresh "pay-1" "ntf-2" 2000)
         (payment "app-1" 500) (Bearer citizenA) store1).

End Demo.

(** The token that outlives its user record. *)

Module Stale.

(** Citizen B registers and logs in; then the admin resets the sample
    data, which drops B's user record while B's token stays valid. *)
Definition registered : Store :=
  fst (post_api_register (Demo.fresh "uid-4" "ntf-1" 1000)
         Demo.citizenB_form Demo.store0).

Definition login : Response :=
  snd (post_api_login
         (Js.Obj [("email", Js.Str "b@example.com");
                  ("password", Js.Str "bpass")])
         registered).

Definition after_reset : Store :=
  fst (post_api_sample_reset (Bearer Demo.admin) registered).

(** ... and citizen A submits an application, which stores a
    notification. *)
Definition later : Store :=
  fst (post_api_applications (Demo.fresh "app-1" "ntf-2" 2000)
         (Demo.submission "mutation" "PLOT123" [Js.Str "doc-1"])
         (Bearer Demo.citizenA) after_reset).

End Stale.

(** * Vocabulary of the further properties *)

(** The values [===] compares by content: everything but arrays and
    objects. *)
Definition primitive (v : Js.value) : bool :=
  match v with
  | Js.Arr _ | Js.Obj _ => false
  | _ => true
  end.

(** The account an accepted registration stores. *)
Definition registered_user (f : Fresh) (body : Js.value) : User.t :=
  User.mk (uuid1 f) (Js.get body "name") (Js.get body "email")
          (Js.get body "password") "citizen"
          (Js.or (Js.get body "language") (Js.Str "en")).

(** The token [/api/login] signs for a stored user. *)
Definition token_of (u : User.t) : Payload.t :=
  Payload.mk (User.id u) (User.role u) (User.email u).


(** Any requests, served in order. *)
Fixpoint run (rs : list Request) (st : Store) : Store :=
  match rs with
  | [] => st
  | r :: rest => run rest (fst (handle r st))
  end.

Definition is_reset (r : Request) : bool :=
  match r with
  | POST_sample_reset _ => true
  | _ => false
  end.

(** What a review assigns to. *)
Definition review (a : Application.t)
    : Js.value * list HistoryEntry.t * Js.value :=
  (Application.applicationStatus a, Application.history a,
   Application.officerAssigned a).


(** How a request can change the user array. *)
Inductive users_change (old : list User.t) : list User.t -> Prop :=
| users_same : users_change old old
| users_joined (f : Fresh) (body : Js.value) :
    existsb (fun u => Js.strict_eq (User.email u) (Js.get body "email")) old
    = false ->
    users_change old (old ++ [registered_user f body])
| users_cut : users_change old (firstn 3 old)
| users_language (ref : nat) (l : Js.value) :
    users_change old (mutate ref (User.set_language l) old).

(** The three seed accounts, with whatever language they now have, at
    the head of the array, and citizens only behind them. *)
Definition seed_accounts (us : list User.t) : Prop :=
  exists id1 id2 id3 u1 u2 u3 rest,
    us = u1 :: u2 :: u3 :: rest
    /\ map (User.set_language (Js.Str "en")) [u1; u2; u3]
       = seed_users id1 id2 id3
    /\ Forall (fun u => User.role u = "citizen") rest.

(** The first three users are the seed accounts created with the ids
    [id1], [id2], [id3], whatever language each now has. *)
Definition seed_accounts_of (id1 id2 id3 : string) (us : list User.t) : Prop :=
  map (User.set_language (Js.Str "en")) (firstn 3 us) = seed_users id1 id2 id3.

(** No value of the list is [===] a later one. *)
Fixpoint distinct (l : list Js.value) : Prop :=
  match l with
  | [] => True
  | e :: r => (forall e', In e' r -> Js.strict_eq e e' = false) /\ distinct r
  end.


(** The lookup a payment record was created through: the application
    with the record's [applicationId] whose applicant is [paidBy]. *)
Definition paid_for (p : Payment.t) : Application.t -> bool :=
  fun a => Js.strict_eq (Js.Str (Application.id a)) (Payment.applicationId p)
           && Js.strict_eq (Application.applicantEmail a) (Payment.paidBy p).

Definition payment_key (p : Payment.t) : Js.value * Js.value :=
  (Payment.applicationId p, Payment.paidBy p).

(** The application a payment was made for is marked completed. *)
Definition settled (apps : list Application.t) (p : Payment.t) : Prop :=
  exists ref app,
    find_ref (paid_for p) apps = Some (ref, app)
    /\ Application.paymentStatus app = "completed".

(** An application marked completed has its payment record. *)
Definition receipted (pays : list Payment.t) (a : Application.t) : Prop :=
  Application.paymentStatus a = "completed" ->
  exists p, In p pays
            /\ Payment.applicationId p = Js.Str (Application.id a)
            /\ Payment.paidBy p = Application.applicantEmail a.

Definition ledger (apps : list Application.t) (pays : list Payment.t) : Prop :=
  Forall (settled apps) pays
  /\ NoDup (map payment_key pays)
  /\ Forall (receipted pays) apps.

(** An application as the submission handler builds it and the later
    assignments leave it. *)
Definition well_formed (ps : list Plot.t) (a : Application.t) : Prop :=
  In (Application.applicationType a) recognized_types
  /\ (exists plot, In plot ps
                   /\ Js.Str (Plot.plotId plot) = Application.plotId a
                   /\ Js.Str (Plot.currentOwnerEmail plot)
                      = Application.applicantEmail a)
  /\ Js.truthy (Application.documents a) = true
  /\ (Application.paymentStatus a = "pending"
      \/ Application.paymentStatus a = "completed")
  /\ Application.officerAssigned a = Js.Null.


(** The [Authorization] header of a request to a gated route; the
    registration and login routes are open. *)
Definition credentials_of (r : Request) : option Authorization :=
  match r with
  | POST_register _ _ | POST_login _ => None
  | GET_me auth | GET_plots _ auth | GET_plot _ auth | Engine _ auth
  | POST_upload _ _ auth | POST_sample_reset auth | POST_language _ auth =>
      Some auth
  end.

(** * Properties *)

(** ** Strict equality *)

Lemma strict_eq_eq (a b : Js.value) : Js.strict_eq a b = true -> a = b.
Proof.
  destruct a, b; simpl; try discriminate; try reflexivity; intros H.
  - apply Bool.eqb_prop in H; congruence.
  - apply Z.eqb_eq in H; congruence.
  - apply String.eqb_eq in H; congruence.
Qed.

Lemma strict_eq_Str (s : string) (v : Js.value) :
  Js.strict_eq (Js.Str s) v = true <-> v = Js.Str s.
Proof.
  split.
  - intros H; symmetry; now apply strict_eq_eq.
  - intros ->; simpl; apply String.eqb_refl.
Qed.

(** ** References into an array *)

Section ArrayFacts.
Context {A : Type}.
Implicit Types (p : A -> bool) (f : A -> A) (l : list A).

Lemma find_ref_Some p l i a :
  find_ref p l = Some (i, a) -> nth_error l i = Some a /\ p a = true.
Proof.
  revert i; induction l as [|x r IH]; simpl; intros i H; [discriminate|].
  destruct (p x) eqn:Hx.
  - inversion H; subst; simpl; auto.
  - destruct (find_ref p r) as [[j y]|]; [|discriminate].
    inversion H; subst; simpl; apply IH; reflexivity.
Qed.

Lemma find_ref_None p l :
  find_ref p l = None <-> (forall x, In x l -> p x = false).
Proof.
  induction l as [|x r IH]; simpl.
  - split; [intros _ y []|reflexivity].
  - destruct (p x) eqn:Hx.
    + split; [discriminate|]. intros H.
      specialize (H x (or_introl eq_refl)). congruence.
    + destruct (find_ref p r) as [[j y]|].
      * split; [discriminate|]. intros H.
        assert (Some (j, y) = None) by (apply IH; auto). discriminate.
      * split; [|reflexivity]. intros _ y [<-|Hy]; [assumption|].
        now apply IH.
Qed.

Lemma length_mutate i f l : length (mutate i f l) = length l.
Proof.
  revert i; induction l as [|x r IH]; intros [|i]; simpl; auto.
Qed.

Lemma nth_error_mutate_same i f l a :
  nth_error l i = Some a -> nth_error (mutate i f l) i = Some (f a).
Proof.
  revert i; induction l as [|x r IH]; intros [|i]; simpl; try discriminate.
  - congruence.
  - apply IH.
Qed.

Lemma nth_error_mutate_other i j f l :
  i <> j -> nth_error (mutate i f l) j = nth_error l j.
Proof.
  revert i j; induction l as [|x r IH]; intros [|i] [|j] H; simpl; auto;
    try congruence.
Qed.

(** A mutation that leaves an observation [g] of every object alone
    leaves the observations of the whole array alone. *)
Lemma map_mutate_frame {B : Type} (g : A -> B) i f l :
  (forall x, g (f x) = g x) -> map g (mutate i f l) = map g l.
Proof.
  intros Hg; revert i; induction l as [|x r IH]; intros [|i]; simpl; auto.
  - now rewrite Hg.
  - now rewrite IH.
Qed.

(** A lookup whose predicate does not see the mutation returns the same
    reference afterwards. *)
Lemma find_ref_mutate p i f l a :
  (forall x, p (f x) = p x) ->
  find_ref p l = Some (i, a) ->
  find_ref p (mutate i f l) = Some (i, f a).
Proof.
  intros Hp; revert i; induction l as [|x r IH]; simpl; intros i H;
    [discriminate|].
  destruct (p x) eqn:Hx.
  - inversion H; subst; simpl. now rewrite Hp, Hx.
  - destruct (find_ref p r) as [[j y]|] eqn:Hr; [|discriminate].
    inversion H; subst; simpl. rewrite Hx. now rewrite (IH j eq_refl).
Qed.

(** Every position keeps an object, related to the old one by [R],
    when the mutation respects [R]. *)
Lemma nth_error_mutate_rel (R : A -> A -> Prop) i f l :
  (forall x, R x x) -> (forall x, R (f x) x) ->
  forall j a, nth_error l j = Some a ->
  exists a', nth_error (mutate i f l) j = Some a' /\ R a' a.
Proof.
  intros Hrefl Hf j a Hj. destruct (Nat.eq_dec i j) as [->|Hne].
  - exists (f a); split; [now apply nth_error_mutate_same|apply Hf].
  - exists a; split; [now rewrite nth_error_mutate_other|apply Hrefl].
Qed.

End ArrayFacts.

Lemma extends_refl {A : Type} (l : list A) : extends l l.
Proof. exists []; now rewrite app_nil_r. Qed.

Lemma extends_trans {A : Type} (l1 l2 l3 : list A) :
  extends l1 l2 -> extends l2 l3 -> extends l1 l3.
Proof.
  intros [m1 ->] [m2 ->]. exists (m2 ++ m1). now rewrite app_assoc.
Qed.

Lemma extends_length {A : Type} (new old : list A) :
  extends new old -> length old <= length new.
Proof. intros [m ->]. rewrite length_app. lia. Qed.

(** ** The role gate *)

Lemma includes_In (l : list string) (s : string) :
  Js.includes l (Js.Str s) = true <-> In s l.
Proof.
  unfold Js.includes. rewrite existsb_exists. split.
  - intros [x [Hin Heq]]. apply strict_eq_Str in Heq.
    inversion Heq; subst; assumption.
  - intros Hin. exists s. split; [assumption|]. now apply strict_eq_Str.
Qed.

Lemma authorizeRoles_allowed allowedRoles next user st :
  In (Payload.role user) allowedRoles ->
  authorizeRoles allowedRoles next (Bearer user) st = next user st.
Proof.
  intros H. apply includes_In in H. unfold authorizeRoles. now rewrite H.
Qed.

Lemma authorizeRoles_denied allowedRoles next user st :
  ~ In (Payload.role user) allowedRoles ->
  authorizeRoles allowedRoles next (Bearer user) st
  = (st, Json 403 (ErrorBody "Access denied")).
Proof.
  intros H. unfold authorizeRoles.
  destruct (Js.includes _ _) eqn:E; [|reflexivity].
  apply includes_In in E. contradiction.
Qed.

(** ** Submission *)

Lemma includes_recognized (v : Js.value) :
  Js.includes ["mutation"; "correction"; "conversion"] v = true
  <-> In v recognized_types.
Proof.
  unfold Js.includes, recognized_types; cbn [existsb In].
  rewrite !Bool.orb_true_iff, !strict_eq_Str.
  intuition (auto; try discriminate).
Qed.

(** The plot lookup of the submission handler succeeds exactly when the
    registry holds a plot with the named id whose owner is the caller. *)
Lemma owned_plot_lookup (plotId email : Js.value) (ps : list Plot.t) :
  find (fun p => Js.strict_eq (Js.Str (Plot.plotId p)) plotId
                 && Js.strict_eq (Js.Str (Plot.currentOwnerEmail p)) email) ps
  = None
  <-> (forall p, In p ps -> Js.Str (Plot.plotId p) = plotId ->
                 Js.Str (Plot.currentOwnerEmail p) <> email).
Proof.
  split.
  - intros H p Hin Hid Hown.
    apply (find_none _ _ H) in Hin.
    rewrite <- Hid, <- Hown in Hin. simpl in Hin.
    rewrite !String.eqb_refl in Hin. discriminate.
  - intros H.
    destruct (find _ ps) as [p|] eqn:Hf; [|reflexivity].
    apply find_some in Hf as [Hin Hp].
    apply Bool.andb_true_iff in Hp as [Hid Hown].
    apply strict_eq_eq in Hid, Hown. now destruct (H p Hin Hid).
Qed.

Ltac as_role H :=
  rewrite authorizeRoles_allowed by (rewrite H; simpl; tauto).

(** C2. A submission by a citizen that passes the three validation checks
    (fields present, recognized type, a plot with the named id owned by
    the caller) is answered 201 with the created application: status
    "submitted", payment status "pending", no officer, empty history.
    The application is appended to the application store and exactly one
    notification, addressed to the caller, to the notification store;
    nothing else changes. *)
Theorem valid_submission_creates_application :
  forall (f : Fresh) (body : Js.value) (user : Payload.t) (st : Store)
         (plot : Plot.t),
    Payload.role user = "citizen" ->
    Js.truthy (Js.get body "applicationType") = true ->
    Js.truthy (Js.get body "plotId") = true ->
    Js.truthy (Js.get body "documents") = true ->
    In (Js.get body "applicationType") recognized_types ->
    In plot (plots st) ->
    Js.Str (Plot.plotId plot) = Js.get body "plotId" ->
    Js.Str (Plot.currentOwnerEmail plot) = Payload.email user ->
    exists app n,
      post_api_applications f body (Bearer user) st
      = (mkStore (users st) (plots st) (applications st ++ [app])
                 (notifications st ++ [n]) (payments st) (documents st),
         Json 201 (ApplicationBody app))
      /\ Application.applicationStatus app = Js.Str "submitted"
      /\ Application.paymentStatus app = "pending"
      /\ Application.officerAssigned app = Js.Null
      /\ Application.history app = []
      /\ Application.applicantEmail app = Payload.email user
      /\ Notification.toUserId n = Payload.id user.
Proof.
  intros f body user st plot Hrole Ht Hp Hd Hrec Hin Hid Hown.
  unfold post_api_applications. as_role Hrole.
  rewrite Ht, Hp, Hd. simpl orb. cbv iota.
  apply includes_recognized in Hrec. rewrite Hrec. simpl negb. cbv iota.
  destruct (find _ (plots st)) as [p|] eqn:Hf.
  - eexists; eexists. split; [reflexivity|]. simpl. tauto.
  - exfalso. rewrite owned_plot_lookup in Hf. exact (Hf plot Hin Hid Hown).
Qed.

Lemma valid_submission_creates_application_witness :
  exists app n,
    post_api_applications (Demo.fresh "app-1" "ntf-1" 1000)
      (Demo.submission "mutation" "PLOT123" [Js.Str "doc-1"])
      (Bearer Demo.citizenA) Demo.store0
    = (mkStore (users Demo.store0) (plots Demo.store0)
               (applications Demo.store0 ++ [app])
               (notifications Demo.store0 ++ [n]) (payments Demo.store0)
               (documents Demo.store0),
       Json 201 (ApplicationBody app))
    /\ Application.applicationStatus app = Js.Str "submitted"
    /\ Application.paymentStatus app = "pending"
    /\ Application.officerAssigned app = Js.Null
    /\ Application.history app = []
    /\ Application.applicantEmail app = Payload.email Demo.citizenA
    /\ Notification.toUserId n = Payload.id Demo.citizenA.
Proof.
  apply (valid_submission_creates_application
           (Demo.fresh "app-1" "ntf-1" 1000)
           (Demo.submission "mutation" "PLOT123" [Js.Str "doc-1"])
           Demo.citizenA Demo.store0
           (hd (Plot.mk "" (Plot.Build_LatLng 0 0) 0 "" "" "" []) seed_plots));
    try reflexivity.
  - simpl; auto.
  - simpl; auto.
Defined.

(** C3 (as the code has it).  A submission by a citizen whose [documents]
    field is missing or falsy (undefined, null, false, 0, the empty
    string) is answered 400 "Missing fields" and the store is left as it
    was: no application is created. *)
Theorem missing_documents_rejected :
  forall (f : Fresh) (body : Js.value) (user : Payload.t) (st : Store),
    Payload.role user = "citizen" ->
    Js.truthy (Js.get body "documents") = false ->
    post_api_applications f body (Bearer user) st
    = (st, Json 400 (ErrorBody "Missing fields")).
Proof.
  intros f body user st Hrole Hd.
  unfold post_api_applications. as_role Hrole.
  rewrite Hd. simpl negb. now rewrite Bool.orb_true_r.
Qed.

Lemma missing_documents_rejected_witness :
  post_api_applications (Demo.fresh "app-1" "ntf-1" 1000)
    (Js.Obj [("applicationType", Js.Str "mutation");
             ("plotId", Js.Str "PLOT123")])
    (Bearer Demo.citizenA) Demo.store0
  = (Demo.store0, Json 400 (ErrorBody "Missing fields")).
Proof.
  apply (missing_documents_rejected (Demo.fresh "app-1" "ntf-1" 1000)
           (Js.Obj [("applicationType", Js.Str "mutation");
                    ("plotId", Js.Str "PLOT123")])
           Demo.citizenA Demo.store0); reflexivity.
Defined.

(** C3, as stated, fails: an empty array is truthy, so a submission with
    [documents: []] passes the presence check and, the rest being valid,
    creates an application. *)
Lemma empty_documents_accepted :
  let body := Demo.submission "mutation" "PLOT123" [] in
  let out := post_api_applications (Demo.fresh "app-1" "ntf-1" 1000) body
               (Bearer Demo.citizenA) Demo.store0 in
  Js.get body "documents" = Js.Arr []
  /\ snd out <> Json 400 (ErrorBody "Missing fields")
  /\ (exists app, snd out = Json 201 (ApplicationBody app)
                  /\ applications (fst out) = [app]
                  /\ Application.documents app = Js.Arr []).
Proof.
  cbv zeta. split; [reflexivity|]. split; [discriminate|].
  eexists. split; [reflexivity|]. split; reflexivity.
Qed.

(** C4 (as the code has it).  Let a citizen submit naming a plot id such
    that no plot with that id is owned by the caller.  The submission is
    always answered with a 400 rejection and the store is left as it was.
    When the submission passes the two earlier checks (fields present,
    recognized type) the rejection is "Plot does not belong to you". *)
Theorem unowned_plot_rejected :
  forall (f : Fresh) (body : Js.value) (user : Payload.t) (st : Store),
    Payload.role user = "citizen" ->
    (forall p, In p (plots st) ->
               Js.Str (Plot.plotId p) = Js.get body "plotId" ->
               Js.Str (Plot.currentOwnerEmail p) <> Payload.email user) ->
    (exists reason,
       post_api_applications f body (Bearer user) st
       = (st, Json 400 (ErrorBody reason)))
    /\ (Js.truthy (Js.get body "applicationType") = true ->
        Js.truthy (Js.get body "plotId") = true ->
        Js.truthy (Js.get body "documents") = true ->
        In (Js.get body "applicationType") recognized_types ->
        post_api_applications f body (Bearer user) st
        = (st, Json 400 (ErrorBody "Plot does not belong to you"))).
Proof.
  intros f body user st Hrole Hnone.
  apply owned_plot_lookup in Hnone.
  unfold post_api_applications. as_role Hrole. rewrite Hnone.
  split.
  - destruct (_ || _); [eauto|]. destruct (negb _); eauto.
  - intros Ht Hp Hd Hrec. apply includes_recognized in Hrec.
    now rewrite Ht, Hp, Hd, Hrec.
Qed.

Lemma unowned_plot_rejected_witness :
  post_api_applications (Demo.fresh "app-2" "ntf-2" 3000)
    (Demo.submission "mutation" "PLOT123" [Js.Str "doc-9"])
    (Bearer Demo.citizenB) Demo.store1
  = (Demo.store1, Json 400 (ErrorBody "Plot does not belong to you")).
Proof.
  apply (unowned_plot_rejected (Demo.fresh "app-2" "ntf-2" 3000)
           (Demo.submission "mutation" "PLOT123" [Js.Str "doc-9"])
           Demo.citizenB Demo.store1); try reflexivity.
  - intros p [<-|[]] _; simpl; discriminate.
  - simpl; auto.
Defined.

(** C4, as stated, fails: the ownership check comes third.  Citizen B
    names PLOT123, which A owns, with an unrecognized type: the answer is
    the type rejection, not the ownership one. *)
Lemma unowned_plot_other_rejection :
  let body := Demo.submission "lease" "PLOT123" [Js.Str "doc-9"] in
  let out := post_api_applications (Demo.fresh "app-2" "ntf-2" 3000) body
               (Bearer Demo.citizenB) Demo.store0 in
  (forall p, In p (plots Demo.store0) ->
             Js.Str (Plot.plotId p) = Js.get body "plotId" ->
             Js.Str (Plot.currentOwnerEmail p) <> Payload.email Demo.citizenB)
  /\ out = (Demo.store0, Json 400 (ErrorBody "Invalid application type"))
  /\ snd out <> Json 400 (ErrorBody "Plot does not belong to you").
Proof.
  cbv zeta. split; [|split; [reflexivity|discriminate]].
  intros p [<-|[]] _; simpl; discriminate.
Qed.

(** ** Payment *)

Lemma own_application_paid applicationId user s a :
  own_application applicationId user (Application.set_paymentStatus s a)
  = own_application applicationId user a.
Proof. reflexivity. Qed.

(** What an accepted payment does, in full. *)
Lemma payment_accepted f body user st ref app :
  Payload.role user = "citizen" ->
  Js.truthy (Js.get body "applicationId") = true ->
  Js.typeof (Js.get body "amount") = "number" ->
  find_ref (own_application (Js.get body "applicationId") user)
           (applications st) = Some (ref, app) ->
  Application.paymentStatus app <> "completed" ->
  post_api_payments_initiate f body (Bearer user) st
  = (mkStore (users st) (plots st)
       (mutate ref (Application.set_paymentStatus "completed")
               (applications st))
       (notifications st ++
        [Notification.mk (uuid2 f) (Payload.id user)
           (Template "Payment successful for application: "
                     (Js.get body "applicationId"))
           (date2 f)])
       (payments st ++
        [Payment.mk (uuid1 f) (Js.get body "applicationId")
           (Js.get body "amount") "initiated" (Payload.email user) (date1 f)])
       (documents st),
     Json 200 (PaymentBody (uuid1 f) "completed")).
Proof.
  intros Hrole Hid Hnum Hfind Hpending.
  unfold post_api_payments_initiate. as_role Hrole.
  unfold own_application in Hfind.
  rewrite Hid, Hnum, Hfind. simpl.
  apply String.eqb_neq in Hpending. now rewrite Hpending.
Qed.

Lemma payment_already_paid f body user st ref app :
  Payload.role user = "citizen" ->
  Js.truthy (Js.get body "applicationId") = true ->
  Js.typeof (Js.get body "amount") = "number" ->
  find_ref (own_application (Js.get body "applicationId") user)
           (applications st) = Some (ref, app) ->
  Application.paymentStatus app = "completed" ->
  post_api_payments_initiate f body (Bearer user) st
  = (st, Json 409 (ErrorBody "Already paid")).
Proof.
  intros Hrole Hid Hnum Hfind Hpaid.
  unfold post_api_payments_initiate. as_role Hrole.
  unfold own_application in Hfind.
  rewrite Hid, Hnum, Hfind, Hpaid. reflexivity.
Qed.

(** C1, run on the code.  Citizen A pays 500 for the pending application
    "app-1".  The call is answered with status "completed", the
    application's payment status becomes "completed", exactly one
    notification goes to the caller and exactly one payment record is
    stored; the stored record has status "initiated", not "completed". *)
Theorem payment_record_is_stored_initiated :
  let out := post_api_payments_initiate (Demo.fresh "pay-1" "ntf-2" 2000)
               (Demo.payment "app-1" 500) (Bearer Demo.citizenA)
               Demo.store1 in
  map Application.paymentStatus (applications Demo.store1) = ["pending"]
  /\ snd out = Json 200 (PaymentBody "pay-1" "completed")
  /\ map Application.paymentStatus (applications (fst out)) = ["completed"]
  /\ (exists n, notifications (fst out) = notifications Demo.store1 ++ [n]
                /\ Notification.toUserId n = Payload.id Demo.citizenA)
  /\ (exists p, payments (fst out) = payments Demo.store1 ++ [p]
                /\ Payment.id p = "pay-1"
                /\ Payment.status p = "initiated"
                /\ Payment.status p <> "completed").
Proof.
  cbv zeta. split; [reflexivity|]. split; [reflexivity|].
  split; [reflexivity|]. split.
  - eexists. split; reflexivity.
  - eexists. split; [reflexivity|]. split; [reflexivity|].
    split; [reflexivity|discriminate].
Qed.

(** C5. The applicant pays for a pending application and then calls
    payment completion again for the same application.  The first call
    is answered 200 and sets the payment status to "completed" (storing
    one payment record); the second is answered 409 "Already paid" and
    leaves the whole store, hence the payment ledger and the
    application, as the first call left it. *)
Theorem second_payment_conflicts :
  forall (f1 f2 : Fresh) (body1 body2 : Js.value) (user : Payload.t)
         (st : Store) (ref : nat) (app : Application.t),
    Payload.role user = "citizen" ->
    Js.truthy (Js.get body1 "applicationId") = true ->
    Js.get body2 "applicationId" = Js.get body1 "applicationId" ->
    Js.typeof (Js.get body1 "amount") = "number" ->
    Js.typeof (Js.get body2 "amount") = "number" ->
    find_ref (own_application (Js.get body1 "applicationId") user)
             (applications st) = Some (ref, app) ->
    Application.paymentStatus app = "pending" ->
    let first := post_api_payments_initiate f1 body1 (Bearer user) st in
    let second :=
      post_api_payments_initiate f2 body2 (Bearer user) (fst first) in
    snd first = Json 200 (PaymentBody (uuid1 f1) "completed")
    /\ nth_error (applications (fst first)) ref
       = Some (Application.set_paymentStatus "completed" app)
    /\ length (payments (fst first)) = S (length (payments st))
    /\ snd second = Json 409 (ErrorBody "Already paid")
    /\ fst second = fst first
    /\ payments (fst second) = payments (fst first)
    /\ nth_error (applications (fst second)) ref
       = Some (Application.set_paymentStatus "completed" app).
Proof.
  intros f1 f2 body1 body2 user st ref app Hrole Hid Hsame Hn1 Hn2 Hfind Hpend.
  cbv zeta.
  assert (Hnot : Application.paymentStatus app <> "completed")
    by (rewrite Hpend; discriminate).
  rewrite (payment_accepted f1 body1 user st ref app) by assumption.
  cbn [fst snd applications payments].
  pose proof (find_ref_Some _ _ _ _ Hfind) as [Hnth _].
  assert (Hnth' : nth_error
            (mutate ref (Application.set_paymentStatus "completed")
                    (applications st)) ref
          = Some (Application.set_paymentStatus "completed" app))
    by now apply nth_error_mutate_same.
  rewrite (payment_already_paid f2 body2 user _ ref
             (Application.set_paymentStatus "completed" app)); trivial.
  - cbn [fst snd applications payments].
    rewrite length_app, Nat.add_1_r. tauto.
  - now rewrite Hsame.
  - rewrite Hsame. cbn [applications].
    apply find_ref_mutate; [|assumption].
    intros x. apply own_application_paid.
Qed.

Lemma second_payment_conflicts_witness :
  let first := post_api_payments_initiate (Demo.fresh "pay-1" "ntf-2" 2000)
                 (Demo.payment "app-1" 500) (Bearer Demo.citizenA)
                 Demo.store1 in
  let second := post_api_payments_initiate (Demo.fresh "pay-2" "ntf-3" 2500)
                  (Demo.payment "app-1" 500) (Bearer Demo.citizenA)
                  (fst first) in
  snd second = Json 409 (ErrorBody "Already paid") /\ fst second = fst first.
Proof.
  pose proof (second_payment_conflicts
                (Demo.fresh "pay-1" "ntf-2" 2000)
                (Demo.fresh "pay-2" "ntf-3" 2500)
                (Demo.payment "app-1" 500) (Demo.payment "app-1" 500)
                Demo.citizenA Demo.store1 0
                (hd (Application.mk "" Js.Null Js.Null Js.Null Js.Null Js.Null
                       0 Js.Null Js.Null Js.Null "" [])
                    (applications Demo.store1))
                eq_refl eq_refl eq_refl eq_refl eq_refl eq_refl eq_refl) as H.
  cbv zeta in H. cbv zeta. tauto.
Defined.

(** ** Listing *)

(** C6. The application listing answers a citizen with exactly the stored
    applications whose [applicantEmail] is ([===]) the caller's email, in
    store order; it answers an officer or an admin with every stored
    application; and whoever calls, the store is left as it was. *)
Theorem listing_by_role :
  forall (user : Payload.t) (auth : Authorization) (st : Store),
    (Payload.role user = "citizen" ->
     exists listed,
       get_api_applications (Bearer user) st
       = (st, Json 200 (ApplicationsBody listed))
       /\ listed = filter (fun a => Js.strict_eq (Application.applicantEmail a)
                                                (Payload.email user))
                          (applications st)
       /\ (forall a, In a listed <->
                     In a (applications st)
                     /\ Js.strict_eq (Application.applicantEmail a)
                                     (Payload.email user) = true)
       /\ (forall a, In a listed ->
                     Application.applicantEmail a = Payload.email user))
    /\ (Payload.role user = "officer" \/ Payload.role user = "admin" ->
        get_api_applications (Bearer user) st
        = (st, Json 200 (ApplicationsBody (applications st))))
    /\ fst (get_api_applications auth st) = st.
Proof.
  intros user auth st. split; [|split].
  - intros Hrole. eexists. split; [|split; [reflexivity|split]].
    + unfold get_api_applications. as_role Hrole. rewrite Hrole. reflexivity.
    + intros a. apply filter_In.
    + intros a Ha. apply filter_In in Ha as [_ Ha]. now apply strict_eq_eq.
  - intros Hrole. unfold get_api_applications.
    destruct Hrole as [Hrole|Hrole]; as_role Hrole; now rewrite Hrole.
  - unfold get_api_applications, authorizeRoles.
    destruct auth as [| |u]; try reflexivity.
    destruct (negb _); [reflexivity|]. now destruct (_ =? _).
Qed.

Lemma listing_by_role_witness :
  get_api_applications (Bearer Demo.citizenB) Demo.store2
  = (Demo.store2, Json 200 (ApplicationsBody []))
  /\ get_api_applications (Bearer Demo.officer) Demo.store2
     = (Demo.store2, Json 200 (ApplicationsBody (applications Demo.store2)))
  /\ length (applications Demo.store2) = 1.
Proof.
  destruct (listing_by_role Demo.citizenB NoHeader Demo.store2)
    as [Hcit _].
  destruct (listing_by_role Demo.officer NoHeader Demo.store2)
    as [_ [Hoff _]].
  destruct (Hcit eq_refl) as [listed [Hres [Hlisted _]]].
  split; [|split; [|reflexivity]].
  - rewrite Hres, Hlisted. reflexivity.
  - apply Hoff. left; reflexivity.
Defined.

(** ** How a request can change the application array *)

Create HintDb workflow.
#[local] Hint Constructors app_change : workflow.

Ltac crack :=
  repeat match goal with
         | |- context [match ?x with _ => _ end] => destruct x eqn:?
         end.

Lemma route_app_change (op : Operation) (auth : Authorization) (st : Store) :
  app_change (applications st) (applications (fst (route op auth st))).
Proof.
  destruct op; simpl route.
  - unfold post_api_applications, authorizeRoles; crack;
      simpl; auto with workflow.
  - unfold get_api_applications, authorizeRoles; crack;
      simpl; auto with workflow.
  - unfold post_api_applications_id_status, authorizeRoles; crack;
      simpl; try apply app_decided; auto with workflow.
  - unfold post_api_payments_initiate, authorizeRoles; crack;
      simpl; auto with workflow.
  - unfold get_api_notifications, authorizeRoles; crack;
      simpl; auto with workflow.
Qed.

Lemma history_kept_refl a : history_kept a a.
Proof. split; [reflexivity|apply extends_refl]. Qed.

Lemma histories_kept_refl l : histories_kept l l.
Proof. intros i a H. exists a. split; [assumption|apply history_kept_refl]. Qed.

Lemma histories_kept_trans l1 l2 l3 :
  histories_kept l1 l2 -> histories_kept l2 l3 -> histories_kept l1 l3.
Proof.
  intros H12 H23 i a Ha.
  destruct (H23 i a Ha) as [b [Hb [Hidb Hextb]]].
  destruct (H12 i b Hb) as [c [Hc [Hidc Hextc]]].
  exists c. split; [assumption|]. split; [congruence|].
  eapply extends_trans; eassumption.
Qed.

Lemma app_change_histories_kept old new :
  app_change old new -> histories_kept new old.
Proof.
  intros [|app|ref|ref entry status].
  - apply histories_kept_refl.
  - intros i a Ha. exists a. split; [|apply history_kept_refl].
    rewrite nth_error_app1; [assumption|].
    apply nth_error_Some. congruence.
  - intros i a Ha. apply nth_error_mutate_rel; trivial.
    + apply history_kept_refl.
    + intros x. split; [reflexivity|apply extends_refl].
  - intros i a Ha. apply nth_error_mutate_rel; trivial.
    + apply history_kept_refl.
    + intros x. split; [reflexivity|]. now exists [entry].
Qed.

Lemma serve_histories_kept reqs st :
  histories_kept (applications (serve reqs st)) (applications st).
Proof.
  revert st; induction reqs as [|[op auth] rest IH]; intros st; simpl.
  - apply histories_kept_refl.
  - eapply histories_kept_trans; [apply IH|].
    apply app_change_histories_kept, route_app_change.
Qed.

(** ** Status updates and the history *)

(** What a status update by an officer or an admin does to the
    application array, whatever it then answers. *)
Lemma status_update_assigns f appId body user st ref app :
  In (Payload.role user) ["officer"; "admin"] ->
  find_ref (fun a => Application.id a =? appId) (applications st)
  = Some (ref, app) ->
  applications
    (fst (post_api_applications_id_status f appId body (Bearer user) st))
  = mutate ref
      (decide (HistoryEntry.mk (Payload.role user) (date1 f)
                 (Js.get body "status") (Js.get body "remarks"))
              (Js.get body "status"))
      (applications st).
Proof.
  intros Hrole Hfind. unfold post_api_applications_id_status.
  rewrite authorizeRoles_allowed by assumption. rewrite Hfind.
  destruct (find _ _) as [u|]; [|reflexivity].
  destruct (Js.to_string_throws _); reflexivity.
Qed.

(** C7. Every status update by an officer or an admin on a stored
    application appends exactly one record, the one describing this
    update, at the end of that application's history, and touches no
    other application; this holds whatever the handler then answers.  A
    status update answered with success was such an update.  Over any
    sequence of engine requests, the application at a position of the
    store stays at that position with its id, its old history is a
    prefix of its new one (nothing removed, nothing reordered), and so
    the history's length never decreases. *)
Theorem history_append_only :
  (forall (f : Fresh) (appId : string) (body : Js.value) (user : Payload.t)
          (st : Store) (ref : nat) (app : Application.t),
      In (Payload.role user) ["officer"; "admin"] ->
      find_ref (fun a => Application.id a =? appId) (applications st)
      = Some (ref, app) ->
      let st' :=
        fst (post_api_applications_id_status f appId body (Bearer user) st) in
      exists app',
        nth_error (applications st') ref = Some app'
        /\ Application.history app'
           = Application.history app ++
             [HistoryEntry.mk (Payload.role user) (date1 f)
                (Js.get body "status") (Js.get body "remarks")]
        /\ length (Application.history app')
           = S (length (Application.history app))
        /\ length (applications st') = length (applications st)
        /\ (forall j, j <> ref ->
              nth_error (applications st') j = nth_error (applications st) j))
  /\ (forall (f : Fresh) (appId : string) (body : Js.value) (user : Payload.t)
             (st st' : Store) (app' : Application.t),
        post_api_applications_id_status f appId body (Bearer user) st
        = (st', Json 200 (ApplicationBody app')) ->
        exists ref app,
          In (Payload.role user) ["officer"; "admin"]
          /\ find_ref (fun a => Application.id a =? appId) (applications st)
             = Some (ref, app)
          /\ nth_error (applications st) ref = Some app
          /\ nth_error (applications st') ref = Some app'
          /\ Application.history app'
             = Application.history app ++
               [HistoryEntry.mk (Payload.role user) (date1 f)
                  (Js.get body "status") (Js.get body "remarks")]
          /\ length (Application.history app')
             = S (length (Application.history app))
          /\ (forall j, j <> ref ->
                nth_error (applications st') j
                = nth_error (applications st) j))
  /\ (forall (reqs : list (Operation * Authorization)) (st : Store)
             (i : nat) (a : Application.t),
        nth_error (applications st) i = Some a ->
        exists a',
          nth_error (applications (serve reqs st)) i = Some a'
          /\ Application.id a' = Application.id a
          /\ extends (Application.history a') (Application.history a)
          /\ length (Application.history a)
             <= length (Application.history a')).
Proof.
  split; [|split].
  - intros f appId body user st ref app Hrole Hfind. cbv zeta.
    rewrite (status_update_assigns f appId body user st ref app Hrole Hfind).
    destruct (find_ref_Some _ _ _ _ Hfind) as [Hnth _].
    eexists. split; [exact (nth_error_mutate_same ref _ _ _ Hnth)|].
    split; [reflexivity|]. split.
    + simpl. rewrite length_app, Nat.add_1_r. reflexivity.
    + split; [apply length_mutate|].
      intros j Hj. apply nth_error_mutate_other. congruence.
  - intros f appId body user st st' app' H.
    assert (Hst' : st' = fst (post_api_applications_id_status f appId body
                                (Bearer user) st)) by now rewrite H.
    unfold post_api_applications_id_status, authorizeRoles in H.
    destruct (Js.includes _ _) eqn:Hrole; simpl negb in H; cbv iota in H;
      [|discriminate].
    apply includes_In in Hrole.
    destruct (find_ref _ (applications st)) as [[ref app]|] eqn:Hfind;
      [|discriminate].
    destruct (find _ _) as [u|]; [|discriminate].
    destruct (Js.to_string_throws _); [discriminate|].
    injection H as Hs Happ. clear Hs. rewrite <- Happ.
    destruct (find_ref_Some _ _ _ _ Hfind) as [Hnth _].
    rewrite Hst', (status_update_assigns f appId body user st ref app
                     Hrole Hfind).
    exists ref, app.
    split; [assumption|]. split; [reflexivity|]. split; [assumption|].
    split; [|split; [reflexivity|split]].
    + exact (nth_error_mutate_same ref (decide _ _) _ _ Hnth).
    + simpl. rewrite length_app, Nat.add_1_r. reflexivity.
    + intros j Hj. apply nth_error_mutate_other. congruence.
  - intros reqs st i a Ha.
    destruct (serve_histories_kept reqs st i a Ha) as [a' [Ha' [Hid Hext]]].
    exists a'. split; [assumption|]. split; [assumption|].
    split; [assumption|]. now apply extends_length.
Qed.

Lemma history_append_only_witness :
  let decided :=
    post_api_applications_id_status (Demo.fresh "" "ntf-3" 3000) "app-1"
      (Demo.decision "approved" "verified") (Bearer Demo.officer)
      Demo.store2 in
  (exists app',
     nth_error (applications (fst decided)) 0 = Some app'
     /\ Application.history app'
        = [HistoryEntry.mk "officer" 3000 (Js.Str "approved")
             (Js.Str "verified")])
  /\ (exists app',
        snd decided = Json 200 (ApplicationBody app')
        /\ Application.history app'
           = [HistoryEntry.mk "officer" 3000 (Js.Str "approved")
                (Js.Str "verified")])
  /\ (exists a',
        nth_error
          (applications
             (serve [(initiateAndCompletePayment
                        (Demo.fresh "pay-1" "ntf-2" 2000)
                        (Demo.payment "app-1" 500), Bearer Demo.citizenA);
                     (updateApplicationStatus (Demo.fresh "" "ntf-3" 3000)
                        "app-1" (Demo.decision "approved" "verified"),
                      Bearer Demo.officer)]
                    Demo.store1)) 0 = Some a'
        /\ Application.id a' = "app-1").
Proof.
  destruct history_append_only as [Hevery [Hone Hseq]]. cbv zeta.
  split; [|split].
  - destruct (Hevery (Demo.fresh "" "ntf-3" 3000) "app-1"
                (Demo.decision "approved" "verified") Demo.officer
                Demo.store2 0
                (hd (Application.mk "" Js.Null Js.Null Js.Null Js.Null Js.Null
                       0 Js.Null Js.Null Js.Null "" [])
                    (applications Demo.store2)))
      as [app' [Hnth [Hhist _]]].
    + simpl; auto.
    + reflexivity.
    + exists app'. split; [exact Hnth|exact Hhist].
  - destruct (Hone (Demo.fresh "" "ntf-3" 3000) "app-1"
                (Demo.decision "approved" "verified") Demo.officer
                Demo.store2 _ _ eq_refl)
      as [ref [app [_ [Hfind [_ [_ [Hhist _]]]]]]].
    eexists. split; [reflexivity|].
    inversion Hfind; subst. exact Hhist.
  - destruct (Hseq
                [(initiateAndCompletePayment
                    (Demo.fresh "pay-1" "ntf-2" 2000)
                    (Demo.payment "app-1" 500), Bearer Demo.citizenA);
                 (updateApplicationStatus (Demo.fresh "" "ntf-3" 3000)
                    "app-1" (Demo.decision "approved" "verified"),
                  Bearer Demo.officer)]
                Demo.store1 0 _ eq_refl)
      as [a' [Ha' [Hid _]]].
    exists a'. split; [exact Ha'|exact Hid].
Defined.

(** ** Frame: what a status update and a payment leave alone *)

(** C8. A status update and a payment keep every stored application in
    place with its id and with the [applicationType], [applicantEmail],
    [plotId] and [documents] it was created with. *)
Theorem creation_fields_immutable :
  forall (f : Fresh) (appId : string) (body : Js.value)
         (auth : Authorization) (st : Store),
    let key a := (Application.id a, Application.created_with a) in
    map key (applications
               (fst (post_api_applications_id_status f appId body auth st)))
    = map key (applications st)
    /\ map key (applications
                  (fst (post_api_payments_initiate f body auth st)))
       = map key (applications st).
Proof.
  intros f appId body auth st key. split.
  - unfold post_api_applications_id_status, authorizeRoles; crack;
      simpl; try reflexivity; now apply map_mutate_frame.
  - unfold post_api_payments_initiate, authorizeRoles; crack;
      simpl; try reflexivity; now apply map_mutate_frame.
Qed.

(** ** Rejections *)

(** The status update is the one engine handler that can assign and then
    throw: it does so when the applicant has no user record, or when the
    status sent has no string conversion.  No store the server can reach
    has an application without its applicant's record, as the lemmas
    below show; there the status alone decides. *)

Lemma Forall_mutate {A : Type} (P : A -> Prop) (i : nat) (f : A -> A)
    (l : list A) :
  (forall x, P x -> P (f x)) -> Forall P l -> Forall P (mutate i f l).
Proof.
  intros Hf H; revert i; induction H as [|x r Hx Hr IH]; intros [|i]; simpl;
    constructor; auto.
Qed.

Lemma hd_error_app {A : Type} (l more : list A) (x : A) :
  hd_error l = Some x -> hd_error (l ++ more) = Some x.
Proof. destruct l; simpl; [discriminate|trivial]. Qed.

Lemma hd_error_firstn {A : Type} (n : nat) (l : list A) (x : A) :
  hd_error l = Some x -> hd_error (firstn (S n) l) = Some x.
Proof. destruct l; simpl; [discriminate|trivial]. Qed.

Ltac seeded_step H :=
  destruct H as [Hplots [Hhead Hall]];
  unfold seeded; cbn [fst plots users applications sendNotification
                      with_users with_applications with_notifications
                      with_payments with_documents];
  repeat split;
  try assumption;
  try (rewrite map_app; now apply hd_error_app);
  try (rewrite <- firstn_map; now apply hd_error_firstn);
  try (rewrite map_mutate_frame by reflexivity; assumption);
  try (apply Forall_mutate; [intros x Hx; exact Hx|assumption]);
  try (now rewrite Hplots);
  try apply Forall_nil.

Lemma handle_seeded (r : Request) (st : Store) :
  seeded st -> seeded (fst (handle r st)).
Proof.
  intros H. destruct r as [f body|body|auth|o auth|pid auth|op auth
                          |f file auth|auth|body auth]; simpl handle.
  - unfold post_api_register; crack; seeded_step H.
  - unfold post_api_login; crack; seeded_step H.
  - unfold get_api_me, authorizeRoles; crack; seeded_step H.
  - unfold get_api_plots, authorizeRoles; crack; seeded_step H.
  - unfold get_api_plots_plotId, authorizeRoles; crack; seeded_step H.
  - destruct op; simpl route.
    + unfold post_api_applications, authorizeRoles.
      destruct auth as [| |user]; try (seeded_step H; fail).
      destruct (negb _); [seeded_step H; fail|].
      destruct (_ || _); [seeded_step H; fail|].
      destruct (negb _); [seeded_step H; fail|].
      destruct (find _ (plots st)) as [plot|] eqn:Hfind;
        [|seeded_step H; fail].
      apply find_some in Hfind as [Hin Hown].
      apply Bool.andb_true_iff in Hown as [_ Hown].
      apply strict_eq_eq in Hown.
      seeded_step H.
      apply Forall_app. split; [assumption|].
      constructor; [|constructor]. cbn [Application.applicantEmail].
      rewrite <- Hown. rewrite Hplots in Hin.
      destruct Hin as [<-|[]]. reflexivity.
    + unfold get_api_applications, authorizeRoles; crack; seeded_step H.
    + unfold post_api_applications_id_status, authorizeRoles; crack;
        seeded_step H.
    + unfold post_api_payments_initiate, authorizeRoles; crack;
        seeded_step H.
    + unfold get_api_notifications, authorizeRoles; crack; seeded_step H.
  - unfold post_api_documents_upload, authorizeRoles; crack; seeded_step H.
  - unfold post_api_sample_reset, authorizeRoles; crack; seeded_step H.
  - unfold post_api_user_language, authorizeRoles; crack; seeded_step H.
Qed.

Lemma reachable_seeded (st : Store) : reachable st -> seeded st.
Proof.
  induction 1 as [id1 id2 id3|st r _ IH].
  - unfold seeded; simpl. repeat split. repeat constructor.
  - now apply handle_seeded.
Qed.

Lemma reachable_status_update_responds (st : Store) :
  reachable st ->
  forall f appId body auth,
  Js.to_string_throws (Js.get body "status") = false ->
  exists code b,
    snd (post_api_applications_id_status f appId body auth st) = Json code b.
Proof.
  intros Hreach f appId body auth Hconv.
  destruct (reachable_seeded st Hreach) as [_ [Hhead Hall]].
  unfold post_api_applications_id_status, authorizeRoles.
  destruct auth as [| |user]; simpl; eauto.
  destruct (negb _); simpl; eauto.
  destruct (find_ref _ (applications st)) as [[ref app]|] eqn:Hfind;
    simpl; eauto.
  destruct (find_ref_Some _ _ _ _ Hfind) as [Hnth _].
  apply nth_error_In in Hnth.
  rewrite Forall_forall in Hall. rewrite (Hall app Hnth).
  destruct (users st) as [|u rest]; [discriminate|].
  simpl in Hhead. inversion Hhead as [He].
  cbn [find]. rewrite He. simpl. rewrite Hconv. simpl. eauto.
Qed.

(** C9. Whenever a request to the engine is answered with an error body
    (the 400, 404 and 409 rejections of the handlers, and the 401 and 403
    of the role gate), the store after the request is the store before
    it: nothing was created and nothing altered. *)
Theorem rejection_leaves_store_untouched :
  forall (op : Operation) (auth : Authorization) (st st' : Store)
         (code : nat) (reason : string),
    route op auth st = (st', Json code (ErrorBody reason)) ->
    st' = st.
Proof.
  intros op auth st st' code reason H.
  destruct op; simpl route in H;
    [ unfold post_api_applications, authorizeRoles in H
    | unfold get_api_applications, authorizeRoles in H
    | unfold post_api_applications_id_status, authorizeRoles in H
    | unfold post_api_payments_initiate, authorizeRoles in H
    | unfold get_api_notifications, authorizeRoles in H ];
    repeat match type of H with
           | context [match ?x with _ => _ end] => destruct x eqn:?
           end;
    inversion H; reflexivity.
Qed.

Lemma rejection_leaves_store_untouched_witness :
  exists st',
    route (initiateAndCompletePayment (Demo.fresh "pay-2" "ntf-3" 2500)
             (Demo.payment "app-1" 500))
          (Bearer Demo.citizenA) Demo.store2
    = (st', Json 409 (ErrorBody "Already paid"))
    /\ st' = Demo.store2.
Proof.
  eexists. split; [reflexivity|].
  apply (rejection_leaves_store_untouched
           (initiateAndCompletePayment (Demo.fresh "pay-2" "ntf-3" 2500)
              (Demo.payment "app-1" 500))
           (Bearer Demo.citizenA) Demo.store2 _ 409 "Already paid").
  reflexivity.
Defined.

(** ** Notifications of a caller without a user record *)

Lemma try_filter_throws {A : Type} (l : list A) :
  try_filter (fun _ => @None bool) l
  = match l with [] => Some [] | _ => None end.
Proof. destruct l; reflexivity. Qed.

(** C10 (as the code has it).  Let the caller hold a valid token whose
    user id is not in the user store.  If at least one notification is
    stored, the listing reads [.id] of the absent user record and ends
    with an uncaught TypeError; if none is stored, the filter callback
    never runs and the listing answers with the empty list.  The store
    is left as it was in both cases. *)
Theorem notifications_of_absent_user :
  forall (requser : Payload.t) (st : Store),
    In (Payload.role requser) ["citizen"; "officer"; "admin"] ->
    find (fun u => User.id u =? Payload.id requser) (users st) = None ->
    (notifications st <> [] ->
     get_api_notifications (Bearer requser) st = (st, Uncaught TypeError))
    /\ (notifications st = [] ->
        get_api_notifications (Bearer requser) st
        = (st, Json 200 (NotificationsBody []))).
Proof.
  intros requser st Hrole Habsent.
  unfold get_api_notifications.
  rewrite authorizeRoles_allowed by assumption.
  rewrite Habsent, try_filter_throws.
  destruct (notifications st); split; intros H; congruence.
Qed.

Lemma notifications_of_absent_user_witness :
  Stale.login = Json 200 (LoginBody Demo.citizenB "citizen" (Js.Str "en")
                                    (Js.Str "Citizen B"))
  /\ get_api_notifications (Bearer Demo.citizenB) Stale.later
     = (Stale.later, Uncaught TypeError).
Proof.
  split; [reflexivity|].
  apply (notifications_of_absent_user Demo.citizenB Stale.later).
  - simpl; auto.
  - reflexivity.
  - discriminate.
Defined.

(** C10, as stated, fails: right after the reset that removed the
    caller's user record the notification store is empty, and the
    listing answers 200 with the empty list. *)
Lemma absent_user_after_reset_gets_empty_list :
  Stale.login = Json 200 (LoginBody Demo.citizenB "citizen" (Js.Str "en")
                                    (Js.Str "Citizen B"))
  /\ find (fun u => User.id u =? Payload.id Demo.citizenB)
          (users Stale.after_reset) = None
  /\ get_api_notifications (Bearer Demo.citizenB) Stale.after_reset
     = (Stale.after_reset, Json 200 (NotificationsBody []))
  /\ snd (get_api_notifications (Bearer Demo.citizenB) Stale.after_reset)
     <> Uncaught TypeError.
Proof.
  split; [reflexivity|]. split; [reflexivity|].
  split; [reflexivity|discriminate].
Qed.

(** * Further properties of the handlers *)

(** ** Strict equality, again *)

Lemma strict_eq_sym (a b : Js.value) : Js.strict_eq a b = Js.strict_eq b a.
Proof.
  destruct a, b; simpl; try reflexivity.
  - now destruct b, b0.
  - apply Z.eqb_sym.
  - apply String.eqb_sym.
Qed.

Lemma strict_eq_refl (a : Js.value) :
  primitive a = true -> Js.strict_eq a a = true.
Proof.
  destruct a; simpl; try discriminate; intros _; trivial.
  - now destruct b.
  - apply Z.eqb_refl.
  - apply String.eqb_refl.
Qed.

(** ** Lookups in an array that grows or is assigned to *)

Section LookupFacts.
Context {A : Type}.
Implicit Types (p : A -> bool) (f : A -> A) (l : list A).

Lemma find_find_ref p l : find p l = option_map snd (find_ref p l).
Proof.
  induction l as [|x r IH]; simpl; [reflexivity|].
  destruct (p x); [reflexivity|]. rewrite IH.
  now destruct (find_ref p r) as [[i y]|].
Qed.

Lemma find_app_skip p l more :
  (forall x, In x l -> p x = false) -> find p (l ++ more) = find p more.
Proof.
  induction l as [|x r IH]; simpl; intros H; [reflexivity|].
  rewrite (H x (or_introl eq_refl)). apply IH. intros y Hy. apply H. now right.
Qed.

Lemma find_ref_app_found p l more i a :
  find_ref p l = Some (i, a) -> find_ref p (l ++ more) = Some (i, a).
Proof.
  revert i; induction l as [|x r IH]; simpl; intros i H; [discriminate|].
  destruct (p x); [assumption|].
  destruct (find_ref p r) as [[j y]|]; [|discriminate].
  inversion H; subst. now rewrite (IH j eq_refl).
Qed.

(** Assigning to any object does not move a lookup whose predicate does
    not see the assignment. *)
Lemma find_ref_mutate_any p j f l i a :
  (forall x, p (f x) = p x) ->
  find_ref p l = Some (i, a) ->
  find_ref p (mutate j f l) = Some (i, if (i =? j)%nat then f a else a).
Proof.
  intros Hp; revert i j; induction l as [|x r IH]; simpl; intros i j H;
    [discriminate|].
  destruct (p x) eqn:Hx.
  - inversion H; subst. destruct j; simpl.
    + now rewrite Hp, Hx.
    + now rewrite Hx.
  - destruct (find_ref p r) as [[k y]|] eqn:Hr; [|discriminate].
    inversion H; subst. destruct j as [|j]; simpl.
    + now rewrite Hp, Hx, Hr.
    + now rewrite Hx, (IH k j eq_refl).
Qed.

Lemma find_ref_mutate_none p j f l :
  (forall x, p (f x) = p x) ->
  find_ref p l = None -> find_ref p (mutate j f l) = None.
Proof.
  intros Hp; revert j; induction l as [|x r IH]; simpl; intros j H;
    [now destruct j|].
  destruct (p x) eqn:Hx; [discriminate|].
  destruct (find_ref p r) as [[k y]|] eqn:Hr; [discriminate|].
  destruct j as [|j]; simpl.
  - now rewrite Hp, Hx, Hr.
  - now rewrite Hx, (IH j eq_refl).
Qed.

Lemma In_mutate j f l y :
  In y (mutate j f l) -> In y l \/ exists x, In x l /\ y = f x.
Proof.
  revert j; induction l as [|x r IH]; intros [|j]; simpl; auto.
  - intros [<-|H]; [right; exists x; auto|auto].
  - intros [<-|H]; [auto|].
    destruct (IH j H) as [H'|[z [Hz ->]]]; [auto|right; exists z; auto].
Qed.

End LookupFacts.

(** ** Registration and login *)

Lemma register_accepted f body st :
  Js.truthy (Js.get body "name") = true ->
  Js.truthy (Js.get body "email") = true ->
  Js.truthy (Js.get body "password") = true ->
  existsb (fun u => Js.strict_eq (User.email u) (Js.get body "email"))
          (users st) = false ->
  post_api_register f body st
  = (mkStore (users st ++ [registered_user f body]) (plots st)
             (applications st)
             (notifications st ++
              [Notification.mk (uuid2 f) (uuid1 f)
                 (Lit "Registration successful. Welcome!") (date2 f)])
             (payments st) (documents st),
     Json 201 (MessageBody "Registration successful")).
Proof.
  intros Hn He Hp Hnew. unfold post_api_register.
  now rewrite Hn, He, Hp, Hnew.
Qed.

(** A registration is answered 201 only in the accepting branch. *)
Lemma register_created_inv f body st st' b :
  post_api_register f body st = (st', Json 201 b) ->
  Js.truthy (Js.get body "name") = true
  /\ Js.truthy (Js.get body "email") = true
  /\ Js.truthy (Js.get body "password") = true
  /\ existsb (fun u => Js.strict_eq (User.email u) (Js.get body "email"))
             (users st) = false.
Proof.
  unfold post_api_register.
  destruct (Js.truthy (Js.get body "name")); simpl; [|discriminate].
  destruct (Js.truthy (Js.get body "email")); simpl; [|discriminate].
  destruct (Js.truthy (Js.get body "password")); simpl; [|discriminate].
  destruct (existsb _ _); [discriminate|]. auto.
Qed.

(** X1. Register, then log in.  After a registration answered 201 whose
    email and password are primitive values (strings, as a form sends
    them), a login with the same email and password is answered 200 with
    a token for the new account: the id drawn at registration, role
    "citizen", the registered email.  The login leaves the store as the
    registration left it. *)
Theorem register_then_login :
  forall (f : Fresh) (form credentials : Js.value) (st st1 : Store) (b : Body),
    post_api_register f form st = (st1, Json 201 b) ->
    primitive (Js.get form "email") = true ->
    primitive (Js.get form "password") = true ->
    Js.get credentials "email" = Js.get form "email" ->
    Js.get credentials "password" = Js.get form "password" ->
    post_api_login credentials st1
    = (st1, Json 200 (LoginBody
                        (Payload.mk (uuid1 f) "citizen" (Js.get form "email"))
                        "citizen"
                        (Js.or (Js.get form "language") (Js.Str "en"))
                        (Js.get form "name"))).
Proof.
  intros f form credentials st st1 b Hreg Hpe Hpp Hce Hcp.
  destruct (register_created_inv _ _ _ _ _ Hreg) as [Hn [He [Hp Hnew]]].
  rewrite (register_accepted f form st Hn He Hp Hnew) in Hreg.
  inversion Hreg; subst st1; clear Hreg.
  unfold post_api_login. cbn [users]. rewrite Hce, Hcp.
  rewrite find_app_skip.
  - cbn [find registered_user User.email User.password].
    now rewrite !strict_eq_refl by assumption.
  - intros u Hu. cbn beta.
    assert (Hu' : Js.strict_eq (User.email u) (Js.get form "email") = false).
    { destruct (Js.strict_eq _ _) eqn:E; [|reflexivity].
      assert (existsb (fun u => Js.strict_eq (User.email u)
                                  (Js.get form "email")) (users st) = true)
        by (apply existsb_exists; eauto).
      congruence. }
    now rewrite Hu'.
Qed.

Lemma register_then_login_witness :
  post_api_login
    (Js.Obj [("email", Js.Str "b@example.com"); ("password", Js.Str "bpass")])
    Stale.registered
  = (Stale.registered,
     Json 200 (LoginBody Demo.citizenB "citizen" (Js.Str "en")
                         (Js.Str "Citizen B"))).
Proof.
  apply (register_then_login (Demo.fresh "uid-4" "ntf-1" 1000)
           Demo.citizenB_form
           (Js.Obj [("email", Js.Str "b@example.com");
                    ("password", Js.Str "bpass")])
           Demo.store0 Stale.registered
           (MessageBody "Registration successful")); reflexivity.
Defined.

Lemma handle_emails_kept (r : Request) (st : Store) :
  is_reset r = false ->
  extends (map User.email (users (fst (handle r st))))
          (map User.email (users st)).
Proof.
  intros Hr.
  destruct r as [f body|body|auth|o auth|pid auth|op auth
                |f file auth|auth|body auth]; try discriminate;
    simpl handle; [ | | | | |destruct op; simpl route| | ];
    unfold post_api_register, post_api_login, get_api_me, get_api_plots,
      get_api_plots_plotId, post_api_applications, get_api_applications,
      post_api_applications_id_status, post_api_payments_initiate,
      get_api_notifications, post_api_documents_upload,
      post_api_user_language, authorizeRoles;
    crack; cbn [fst users sendNotification with_users with_applications
                with_notifications with_payments with_documents];
    rewrite ?map_app, ?map_mutate_frame by reflexivity;
    first [apply extends_refl | now eexists].
Qed.

Lemma run_emails_kept (rs : list Request) (st : Store) :
  forallb (fun r => negb (is_reset r)) rs = true ->
  extends (map User.email (users (run rs st))) (map User.email (users st)).
Proof.
  revert st; induction rs as [|r rest IH]; intros st H; simpl.
  - apply extends_refl.
  - simpl in H. apply Bool.andb_true_iff in H as [Hr Hrest].
    apply Bool.negb_true_iff in Hr.
    eapply extends_trans; [apply IH; assumption|].
    now apply handle_emails_kept.
Qed.

(** X2. An email registers once.  After a registration answered 201
    whose email is a primitive value, and any further requests among
    which there is no sample reset, a registration with the same email
    is rejected and leaves the store alone; when it carries a name and a
    password the rejection is 409 "User already exists". *)
Theorem email_registers_once :
  forall (f1 f2 : Fresh) (form1 form2 : Js.value) (st st1 : Store) (b : Body)
         (rs : list Request),
    post_api_register f1 form1 st = (st1, Json 201 b) ->
    primitive (Js.get form1 "email") = true ->
    Js.get form2 "email" = Js.get form1 "email" ->
    forallb (fun r => negb (is_reset r)) rs = true ->
    let st2 := run rs st1 in
    (exists code reason,
       post_api_register f2 form2 st2 = (st2, Json code (ErrorBody reason)))
    /\ (Js.truthy (Js.get form2 "name") = true ->
        Js.truthy (Js.get form2 "password") = true ->
        post_api_register f2 form2 st2
        = (st2, Json 409 (ErrorBody "User already exists"))).
Proof.
  intros f1 f2 form1 form2 st st1 b rs Hreg Hprim Hsame Hrs st2.
  destruct (register_created_inv _ _ _ _ _ Hreg) as [Hn [He [Hp Hnew]]].
  rewrite (register_accepted f1 form1 st Hn He Hp Hnew) in Hreg.
  inversion Hreg as [[Hst1]]. clear Hreg.
  assert (Hdup : existsb (fun u => Js.strict_eq (User.email u)
                                     (Js.get form2 "email"))
                   (users st2) = true).
  { destruct (run_emails_kept rs st1 Hrs) as [more Hmore].
    assert (Hin : In (Js.get form1 "email") (map User.email (users st2))).
    { subst st2. rewrite Hmore. apply in_or_app. left.
      rewrite <- Hst1. cbn [users]. rewrite map_app. apply in_or_app.
      right. now left. }
    apply in_map_iff in Hin as [u [Hu Hin]].
    apply existsb_exists. exists u. split; [assumption|].
    rewrite Hu, Hsame. now apply strict_eq_refl. }
  unfold post_api_register. rewrite Hdup, Hsame, He. split.
  - destruct (_ || _); eauto.
  - intros Hn2 Hp2. now rewrite Hn2, Hp2.
Qed.

Lemma email_registers_once_witness :
  let impostor := Js.Obj [("name", Js.Str "Impostor");
                          ("email", Js.Str "b@example.com");
                          ("password", Js.Str "other")] in
  let later := run [Engine (submitApplication
                              (Demo.fresh "app-1" "ntf-2" 2000)
                              (Demo.submission "mutation" "PLOT123"
                                 [Js.Str "doc-1"]))
                           (Bearer Demo.citizenA);
                    POST_language (Js.Obj [("language", Js.Str "hi")])
                                  (Bearer Demo.citizenB)]
                   Stale.registered in
  post_api_register (Demo.fresh "uid-5" "ntf-5" 5000) impostor later
  = (later, Json 409 (ErrorBody "User already exists"))
  /\ snd (post_api_register (Demo.fresh "uid-5" "ntf-5" 5000) impostor
            Stale.after_reset)
     = Json 201 (MessageBody "Registration successful").
Proof.
  cbv zeta. split; [|reflexivity].
  apply (email_registers_once (Demo.fresh "uid-4" "ntf-1" 1000)
           (Demo.fresh "uid-5" "ntf-5" 5000) Demo.citizenB_form
           (Js.Obj [("name", Js.Str "Impostor");
                    ("email", Js.Str "b@example.com");
                    ("password", Js.Str "other")])
           Demo.store0 Stale.registered
           (MessageBody "Registration successful")
           [Engine (submitApplication
                      (Demo.fresh "app-1" "ntf-2" 2000)
                      (Demo.submission "mutation" "PLOT123"
                         [Js.Str "doc-1"]))
                   (Bearer Demo.citizenA);
            POST_language (Js.Obj [("language", Js.Str "hi")])
                          (Bearer Demo.citizenB)]);
    reflexivity.
Defined.

Lemma In_firstn {A : Type} (n : nat) (l : list A) (x : A) :
  In x (firstn n l) -> In x l.
Proof.
  revert l; induction n as [|n IH]; intros [|y r]; simpl; try tauto.
  intros [H|H]; [now left|right; now apply IH].
Qed.

Lemma login_unknown_email credentials st :
  (forall u, In u (users st) ->
             Js.strict_eq (User.email u) (Js.get credentials "email") = false) ->
  snd (post_api_login credentials st)
  = Json 401 (ErrorBody "Invalid credentials").
Proof.
  intros H. unfold post_api_login.
  destruct (find _ (users st)) as [u|] eqn:Hf; [|reflexivity].
  apply find_some in Hf as [Hin Hu].
  apply Bool.andb_true_iff in Hu as [He _].
  rewrite (H u Hin) in He. discriminate.
Qed.

(** X3. Login reads, never writes.  Whatever the credentials, the store
    after a login is the store before it.  A login answered 200 carries
    the token of a stored user whose email and password are ([===]) the
    ones sent; when no stored user has them, the answer is 401. *)
Theorem login_reads_only :
  forall (credentials : Js.value) (st : Store),
    fst (post_api_login credentials st) = st
    /\ (forall code b,
          snd (post_api_login credentials st) = Json code b ->
          (code = 401 /\ b = ErrorBody "Invalid credentials")
          \/ (exists u,
                In u (users st)
                /\ User.email u = Js.get credentials "email"
                /\ User.password u = Js.get credentials "password"
                /\ code = 200
                /\ b = LoginBody (token_of u) (User.role u) (User.language u)
                                 (User.name u)))
    /\ ((forall u, In u (users st) ->
                   User.email u = Js.get credentials "email" ->
                   User.password u <> Js.get credentials "password") ->
        snd (post_api_login credentials st)
        = Json 401 (ErrorBody "Invalid credentials")).
Proof.
  intros credentials st. unfold post_api_login.
  destruct (find _ (users st)) as [u|] eqn:Hf; cbn [fst snd].
  - apply find_some in Hf as [Hin Hu].
    apply Bool.andb_true_iff in Hu as [He Hp].
    apply strict_eq_eq in He, Hp.
    split; [reflexivity|]. split.
    + intros code b H. inversion H; subst. right. exists u. auto.
    + intros Hnone. now destruct (Hnone u Hin He).
  - split; [reflexivity|]. split; [|reflexivity].
    intros code b H. inversion H; subst. now left.
Qed.

(** ** The role gate on each route *)

(** X4. Who may call what.  A caller whose role is not "citizen" can
    neither submit an application nor pay; a caller who is neither
    "officer" nor "admin" cannot update a status; a caller who is not
    "admin" cannot reset the sample data.  Each of these calls is
    answered 403 "Access denied" and leaves the store alone. *)
Theorem role_gate_matrix :
  forall (user : Payload.t) (st : Store) (f : Fresh) (appId : string)
         (body : Js.value),
    let denied := (st, Json 403 (ErrorBody "Access denied")) in
    (Payload.role user <> "citizen" ->
     post_api_applications f body (Bearer user) st = denied
     /\ post_api_payments_initiate f body (Bearer user) st = denied)
    /\ (Payload.role user <> "officer" -> Payload.role user <> "admin" ->
        post_api_applications_id_status f appId body (Bearer user) st = denied)
    /\ (Payload.role user <> "admin" ->
        post_api_sample_reset (Bearer user) st = denied).
Proof.
  intros user st f appId body denied. subst denied.
  split; [|split].
  - intros H. split; apply authorizeRoles_denied; simpl; intuition congruence.
  - intros H1 H2. apply authorizeRoles_denied; simpl; intuition congruence.
  - intros H. apply authorizeRoles_denied; simpl; intuition congruence.
Qed.

Lemma role_gate_matrix_witness :
  post_api_applications_id_status (Demo.fresh "" "ntf-9" 9000) "app-1"
    (Demo.decision "approved" "by myself") (Bearer Demo.citizenA) Demo.store2
  = (Demo.store2, Json 403 (ErrorBody "Access denied"))
  /\ post_api_payments_initiate (Demo.fresh "pay-9" "ntf-9" 9000)
       (Demo.payment "app-1" 500) (Bearer Demo.officer) Demo.store1
     = (Demo.store1, Json 403 (ErrorBody "Access denied"))
  /\ post_api_sample_reset (Bearer Demo.officer) Demo.store2
     = (Demo.store2, Json 403 (ErrorBody "Access denied")).
Proof.
  split; [|split].
  - apply (role_gate_matrix Demo.citizenA Demo.store2
             (Demo.fresh "" "ntf-9" 9000) "app-1"
             (Demo.decision "approved" "by myself")); discriminate.
  - apply (role_gate_matrix Demo.officer Demo.store1
             (Demo.fresh "pay-9" "ntf-9" 9000) "app-1"
             (Demo.payment "app-1" 500)); discriminate.
  - apply (role_gate_matrix Demo.officer Demo.store2
             (Demo.fresh "" "" 0) "" Js.Null); discriminate.
Defined.

(** ** Sample data reset *)

Lemma reset_by_admin user st :
  Payload.role user = "admin" ->
  post_api_sample_reset (Bearer user) st
  = (mkStore (firstn 3 (users st)) (firstn 1 (plots st)) [] [] [] [],
     Json 200 (MessageBody "Sample/demo data reset to initial state")).
Proof.
  intros H. unfold post_api_sample_reset. now as_role H.
Qed.

(** X5. Resetting twice is resetting once.  After a reset by an admin
    the application, notification, payment and document stores are
    empty, at most three users and one plot are left, and a further
    reset request, whoever sends it, changes nothing. *)
Theorem reset_idempotent :
  forall (user : Payload.t) (again : Authorization) (st : Store),
    Payload.role user = "admin" ->
    let st1 := fst (post_api_sample_reset (Bearer user) st) in
    applications st1 = [] /\ notifications st1 = []
    /\ payments st1 = [] /\ documents st1 = []
    /\ length (users st1) <= 3 /\ length (plots st1) <= 1
    /\ fst (post_api_sample_reset again st1) = st1.
Proof.
  intros user again st Hadmin st1. subst st1.
  rewrite (reset_by_admin user st Hadmin). cbn [fst].
  repeat (split; [reflexivity|]).
  split; [apply firstn_le_length|]. split; [apply firstn_le_length|].
  unfold post_api_sample_reset, authorizeRoles.
  destruct again as [| |u]; try reflexivity.
  destruct (negb _); [reflexivity|].
  cbn [fst users plots]. now rewrite !firstn_firstn.
Qed.

Lemma reset_idempotent_witness :
  fst (post_api_sample_reset (Bearer Demo.admin)
         (fst (post_api_sample_reset (Bearer Demo.admin) Demo.store2)))
  = fst (post_api_sample_reset (Bearer Demo.admin) Demo.store2).
Proof.
  apply (reset_idempotent Demo.admin (Bearer Demo.admin) Demo.store2 eq_refl).
Defined.

(** X6. A reset closes registered accounts.  Let an account be
    registered on a store that already holds at least three users.
    After a reset by an admin, a login with the registered email is
    answered 401, whatever the password. *)
Theorem reset_closes_registered_account :
  forall (f : Fresh) (form credentials : Js.value) (admin : Payload.t)
         (st st1 : Store) (b : Body),
    3 <= length (users st) ->
    post_api_register f form st = (st1, Json 201 b) ->
    Payload.role admin = "admin" ->
    Js.get credentials "email" = Js.get form "email" ->
    snd (post_api_login credentials
           (fst (post_api_sample_reset (Bearer admin) st1)))
    = Json 401 (ErrorBody "Invalid credentials").
Proof.
  intros f form credentials admin st st1 b Hlen Hreg Hadmin Hce.
  destruct (register_created_inv _ _ _ _ _ Hreg) as [Hn [He [Hp Hnew]]].
  rewrite (register_accepted f form st Hn He Hp Hnew) in Hreg.
  inversion Hreg; subst st1; clear Hreg.
  rewrite (reset_by_admin admin _ Hadmin). cbn [fst].
  apply login_unknown_email. cbn [users].
  intros u Hu. rewrite firstn_app in Hu.
  replace (3 - length (users st)) with 0 in Hu by lia.
  rewrite firstn_O, app_nil_r in Hu.
  apply In_firstn in Hu. rewrite Hce.
  destruct (Js.strict_eq _ _) eqn:E; [|reflexivity].
  assert (existsb (fun u => Js.strict_eq (User.email u) (Js.get form "email"))
            (users st) = true) by (apply existsb_exists; eauto).
  congruence.
Qed.

Lemma reset_closes_registered_account_witness :
  snd (post_api_login
         (Js.Obj [("email", Js.Str "b@example.com");
                  ("password", Js.Str "bpass")])
         Stale.after_reset)
  = Json 401 (ErrorBody "Invalid credentials").
Proof.
  apply (reset_closes_registered_account (Demo.fresh "uid-4" "ntf-1" 1000)
           Demo.citizenB_form
           (Js.Obj [("email", Js.Str "b@example.com");
                    ("password", Js.Str "bpass")])
           Demo.admin Demo.store0 Stale.registered
           (MessageBody "Registration successful"));
    reflexivity.
Defined.

Lemma login_reads_only_witness :
  snd (post_api_login
         (Js.Obj [("email", Js.Str "citizen@example.com");
                  ("password", Js.Str "guess")])
         Demo.store0)
  = Json 401 (ErrorBody "Invalid credentials").
Proof.
  apply (login_reads_only
           (Js.Obj [("email", Js.Str "citizen@example.com");
                    ("password", Js.Str "guess")])
           Demo.store0).
  intros u [<-|[<-|[<-|[]]]]; simpl; discriminate.
Defined.

(** ** Profile and language *)

Lemma language_accepted_iff (l : Js.value) :
  Js.includes ["en"; "hi"] l = true <-> l = Js.Str "en" \/ l = Js.Str "hi".
Proof.
  unfold Js.includes; cbn [existsb].
  rewrite !Bool.orb_true_iff, !strict_eq_Str. intuition discriminate.
Qed.

(** X7. Set the language, read it back.  A language switch answered
    200 was sent with language "en" or "hi" by a caller who has a user
    record; it assigns that language to the caller's record and to
    nothing else (every user keeps position, id, name, email, password
    and role; every other store is untouched), and the profile request
    of the same caller then shows the new language. *)
Theorem language_switch_read_back :
  forall (body : Js.value) (requser : Payload.t) (st st' : Store) (b : Body),
    post_api_user_language body (Bearer requser) st = (st', Json 200 b) ->
    let language := Js.get body "language" in
    (language = Js.Str "en" \/ language = Js.Str "hi")
    /\ exists ref user,
         find_ref (fun u => User.id u =? Payload.id requser) (users st)
         = Some (ref, user)
         /\ st' = with_users
                    (mutate ref (User.set_language language) (users st)) st
         /\ map (User.set_language Js.Null) (users st')
            = map (User.set_language Js.Null) (users st)
         /\ get_api_me (Bearer requser) st'
            = (st', Json 200 (ProfileBody (User.id user) (User.name user)
                                (User.email user) (User.role user) language)).
Proof.
  intros body requser st st' b H language. subst language.
  unfold post_api_user_language, authorizeRoles in H.
  destruct (negb (Js.includes ["citizen"; "officer"; "admin"] _)) eqn:Hrole;
    [discriminate|].
  destruct (Js.includes ["en"; "hi"] _) eqn:Hlang; simpl negb in H;
    cbv iota in H; [|discriminate].
  destruct (find_ref _ (users st)) as [[ref user]|] eqn:Hfind; [|discriminate].
  inversion H; subst; clear H.
  split; [now apply language_accepted_iff|].
  exists ref, user. split; [reflexivity|]. split; [reflexivity|]. split.
  - cbn [users with_users]. now apply map_mutate_frame.
  - unfold get_api_me, authorizeRoles. rewrite Hrole.
    cbn [users with_users]. rewrite find_find_ref.
    rewrite (find_ref_mutate _ ref (User.set_language (Js.get body "language"))
               (users st) user); [reflexivity| |assumption].
    reflexivity.
Qed.

Lemma language_switch_read_back_witness :
  let st' := fst (post_api_user_language (Js.Obj [("language", Js.Str "hi")])
                    (Bearer Demo.officer) Demo.store1) in
  get_api_me (Bearer Demo.officer) st'
  = (st', Json 200 (ProfileBody "uid-2" (Js.Str "Land Officer")
                      (Js.Str DEMO_OFFICER_EMAIL) "officer" (Js.Str "hi"))).
Proof.
  cbv zeta.
  destruct (language_switch_read_back (Js.Obj [("language", Js.Str "hi")])
              Demo.officer Demo.store1 _ _ eq_refl)
    as [_ [ref [user [Hfind [_ [_ Hme]]]]]].
  inversion Hfind; subst. exact Hme.
Defined.

(** X8. A caller without a user record.  For a caller with a valid
    token whose id is in no user record, the profile request is answered
    404 "User not found"; the language switch is answered 400 for an
    unsupported language and otherwise ends with an uncaught TypeError,
    the assignment being made to the missing record.  The store is left
    alone in each case. *)
Theorem requests_of_absent_user :
  forall (body : Js.value) (requser : Payload.t) (st : Store),
    In (Payload.role requser) ["citizen"; "officer"; "admin"] ->
    (forall u, In u (users st) -> User.id u <> Payload.id requser) ->
    get_api_me (Bearer requser) st
    = (st, Json 404 (ErrorBody "User not found"))
    /\ (Js.get body "language" = Js.Str "en"
        \/ Js.get body "language" = Js.Str "hi" ->
        post_api_user_language body (Bearer requser) st
        = (st, Uncaught TypeError))
    /\ (Js.get body "language" <> Js.Str "en" ->
        Js.get body "language" <> Js.Str "hi" ->
        post_api_user_language body (Bearer requser) st
        = (st, Json 400 (ErrorBody "Unsupported lang"))).
Proof.
  intros body requser st Hrole Habsent.
  assert (Hnone : find_ref (fun u => User.id u =? Payload.id requser)
                           (users st) = None).
  { apply find_ref_None. intros u Hu. now apply String.eqb_neq, Habsent. }
  split; [|split].
  - unfold get_api_me. rewrite authorizeRoles_allowed by assumption.
    now rewrite find_find_ref, Hnone.
  - intros Hl. apply language_accepted_iff in Hl.
    unfold post_api_user_language.
    rewrite authorizeRoles_allowed by assumption. now rewrite Hl, Hnone.
  - intros H1 H2. unfold post_api_user_language.
    rewrite authorizeRoles_allowed by assumption.
    destruct (Js.includes _ _) eqn:Hl; [|reflexivity].
    apply language_accepted_iff in Hl. tauto.
Qed.

Lemma requests_of_absent_user_witness :
  get_api_me (Bearer Demo.citizenB) Stale.after_reset
  = (Stale.after_reset, Json 404 (ErrorBody "User not found"))
  /\ post_api_user_language (Js.Obj [("language", Js.Str "hi")])
       (Bearer Demo.citizenB) Stale.after_reset
     = (Stale.after_reset, Uncaught TypeError).
Proof.
  destruct (requests_of_absent_user (Js.Obj [("language", Js.Str "hi")])
              Demo.citizenB Stale.after_reset) as [Hme [Hlang _]].
  - simpl; auto.
  - intros u [<-|[<-|[<-|[]]]]; simpl; discriminate.
  - split; [exact Hme|]. apply Hlang. right; reflexivity.
Defined.

(** ** Notifications of a caller with a user record *)

Lemma try_filter_total {A : Type} (p : A -> bool) (l : list A) :
  try_filter (fun x => Some (p x)) l = Some (filter p l).
Proof.
  induction l as [|x r IH]; simpl; [reflexivity|]. rewrite IH.
  now destruct (p x).
Qed.

(** X9. Own notifications only.  A caller who has a user record gets
    exactly the stored notifications addressed to the caller's id, in
    store order, and the store is left alone. *)
Theorem notifications_are_private :
  forall (requser : Payload.t) (st : Store) (user : User.t),
    In (Payload.role requser) ["citizen"; "officer"; "admin"] ->
    In user (users st) ->
    User.id user = Payload.id requser ->
    exists listed,
      get_api_notifications (Bearer requser) st
      = (st, Json 200 (NotificationsBody listed))
      /\ listed = filter (fun n => Notification.toUserId n =? Payload.id requser)
                         (notifications st)
      /\ (forall n, In n listed <->
                    In n (notifications st)
                    /\ Notification.toUserId n = Payload.id requser).
Proof.
  intros requser st user Hrole Hin Hid.
  eexists. split; [|split; [reflexivity|]].
  - unfold get_api_notifications.
    rewrite authorizeRoles_allowed by assumption.
    destruct (find _ (users st)) as [u|] eqn:Hf.
    + apply find_some in Hf as [_ Hu]. apply String.eqb_eq in Hu.
      rewrite Hu. now rewrite try_filter_total.
    + exfalso. apply (find_none _ _ Hf) in Hin.
      apply String.eqb_neq in Hin. contradiction.
  - intros n. rewrite filter_In, String.eqb_eq. reflexivity.
Qed.

Lemma notifications_are_private_witness :
  exists listed,
    get_api_notifications (Bearer Demo.officer) Demo.store2
    = (Demo.store2, Json 200 (NotificationsBody listed))
    /\ listed = [].
Proof.
  destruct (notifications_are_private Demo.officer Demo.store2
              (nth 1 (users Demo.store2)
                   (User.mk "" Js.Null Js.Null Js.Null "" Js.Null)))
    as [listed [Hres [Hlisted _]]].
  - simpl; auto.
  - simpl; auto.
  - reflexivity.
  - exists listed. split; [exact Hres|]. rewrite Hlisted. reflexivity.
Defined.

(** ** Payment and review *)

(** X10. Payment and review do not touch each other.  A status update
    leaves the payment status of every application as it was; a payment
    leaves the status, the history and the assigned officer of every
    application as they were. *)
Theorem payment_and_review_independent :
  forall (f : Fresh) (appId : string) (body : Js.value)
         (auth : Authorization) (st : Store),
    map Application.paymentStatus
        (applications
           (fst (post_api_applications_id_status f appId body auth st)))
    = map Application.paymentStatus (applications st)
    /\ map review
           (applications (fst (post_api_payments_initiate f body auth st)))
       = map review (applications st).
Proof.
  intros f appId body auth st. split.
  - unfold post_api_applications_id_status, authorizeRoles; crack;
      simpl; try reflexivity; now apply map_mutate_frame.
  - unfold post_api_payments_initiate, authorizeRoles; crack;
      simpl; try reflexivity; now apply map_mutate_frame.
Qed.

(** X11. Nobody pays for somebody else.  When no stored application has
    both the id sent and the caller as applicant (the id is unknown, or
    the application is another citizen's), a well-formed payment request
    is answered 404 "Application not found" and changes nothing. *)
Theorem foreign_application_not_payable :
  forall (f : Fresh) (body : Js.value) (user : Payload.t) (st : Store),
    Payload.role user = "citizen" ->
    Js.truthy (Js.get body "applicationId") = true ->
    Js.typeof (Js.get body "amount") = "number" ->
    (forall a, In a (applications st) ->
               Js.Str (Application.id a) = Js.get body "applicationId" ->
               Application.applicantEmail a <> Payload.email user) ->
    post_api_payments_initiate f body (Bearer user) st
    = (st, Json 404 (ErrorBody "Application not found")).
Proof.
  intros f body user st Hrole Hid Hnum Hforeign.
  unfold post_api_payments_initiate. as_role Hrole. rewrite Hid, Hnum.
  cbn [negb orb String.eqb Ascii.eqb Bool.eqb].
  replace (find_ref _ (applications st)) with (@None (nat * Application.t));
    [reflexivity|].
  symmetry. apply find_ref_None. intros a Ha.
  destruct (Js.strict_eq (Js.Str _) _) eqn:E1; [|reflexivity].
  destruct (Js.strict_eq (Application.applicantEmail a) _) eqn:E2;
    [|reflexivity].
  apply strict_eq_eq in E1, E2. now destruct (Hforeign a Ha E1).
Qed.

Lemma foreign_application_not_payable_witness :
  post_api_payments_initiate (Demo.fresh "pay-9" "ntf-9" 9000)
    (Demo.payment "app-1" 500) (Bearer Demo.citizenB) Demo.store1
  = (Demo.store1, Json 404 (ErrorBody "Application not found")).
Proof.
  apply (foreign_application_not_payable (Demo.fresh "pay-9" "ntf-9" 9000)
           (Demo.payment "app-1" 500) Demo.citizenB Demo.store1);
    try reflexivity.
  intros a [<-|[]] _; simpl; discriminate.
Defined.

(** ** Plots *)

(** X12. Plot search.  The search never changes the store.  With a
    truthy [ownerEmail] filter it lists exactly the plots whose current
    owner is that email; with the filter absent or falsy (such as the
    empty string of [?ownerEmail=]) it lists every plot. *)
Theorem plot_search :
  forall (ownerEmail : Js.value) (auth : Authorization) (user : Payload.t)
         (st : Store),
    fst (get_api_plots ownerEmail auth st) = st
    /\ (In (Payload.role user) ["citizen"; "officer"; "admin"] ->
        exists listed,
          get_api_plots ownerEmail (Bearer user) st
          = (st, Json 200 (PlotsBody listed))
          /\ (Js.truthy ownerEmail = false -> listed = plots st)
          /\ (Js.truthy ownerEmail = true ->
              forall p, In p listed <->
                        In p (plots st)
                        /\ Js.Str (Plot.currentOwnerEmail p) = ownerEmail)).
Proof.
  intros ownerEmail auth user st. split.
  - unfold get_api_plots, authorizeRoles; crack; reflexivity.
  - intros Hrole. unfold get_api_plots.
    rewrite authorizeRoles_allowed by assumption.
    eexists. split; [reflexivity|]. split.
    + now intros ->.
    + intros -> p. rewrite filter_In. split.
      * intros [Hin Hp]. apply strict_eq_eq in Hp. auto.
      * intros [Hin <-]. split; [assumption|]. now apply strict_eq_Str.
Qed.

Lemma plot_search_witness :
  get_api_plots (Js.Str "") (Bearer Demo.citizenB) Demo.store0
  = (Demo.store0, Json 200 (PlotsBody seed_plots))
  /\ get_api_plots (Js.Str "b@example.com") (Bearer Demo.citizenB) Demo.store0
     = (Demo.store0, Json 200 (PlotsBody [])).
Proof.
  destruct (plot_search (Js.Str "") NoHeader Demo.citizenB Demo.store0)
    as [_ H].
  destruct H as [listed [Hres [Hall _]]]; [simpl; auto|].
  split; [|reflexivity].
  rewrite Hres, (Hall eq_refl). reflexivity.
Defined.

(** X13. Plot details.  The request is answered 404 "Plot not found"
    exactly when no plot has the requested id; otherwise it is answered
    with a plot of the registry that has this id.  The store is left
    alone. *)
Theorem plot_details :
  forall (plotId : string) (user : Payload.t) (st : Store),
    In (Payload.role user) ["citizen"; "officer"; "admin"] ->
    fst (get_api_plots_plotId plotId (Bearer user) st) = st
    /\ (snd (get_api_plots_plotId plotId (Bearer user) st)
        = Json 404 (ErrorBody "Plot not found")
        <-> (forall p, In p (plots st) -> Plot.plotId p <> plotId))
    /\ (forall code b,
          snd (get_api_plots_plotId plotId (Bearer user) st) = Json code b ->
          code <> 404 ->
          exists p, In p (plots st) /\ Plot.plotId p = plotId
                    /\ code = 200 /\ b = PlotBody p).
Proof.
  intros plotId user st Hrole. unfold get_api_plots_plotId.
  rewrite authorizeRoles_allowed by assumption.
  destruct (find _ (plots st)) as [p|] eqn:Hf; cbn [fst snd].
  - apply find_some in Hf as [Hin Hp]. apply String.eqb_eq in Hp.
    split; [reflexivity|]. split.
    + split; [discriminate|]. intros H. now destruct (H p Hin).
    + intros code b H _. inversion H; subst. eauto.
  - split; [reflexivity|]. split.
    + split; [|reflexivity]. intros _ p Hin.
      apply String.eqb_neq. exact (find_none _ _ Hf p Hin).
    + intros code b H Hc. inversion H; subst. congruence.
Qed.

Lemma plot_details_witness :
  snd (get_api_plots_plotId "PLOT999" (Bearer Demo.citizenA) Demo.store0)
  = Json 404 (ErrorBody "Plot not found").
Proof.
  destruct (plot_details "PLOT999" Demo.citizenA Demo.store0) as [_ [H _]].
  - simpl; auto.
  - apply H. intros p [<-|[]]; simpl; discriminate.
Defined.

(** ** Stores that only grow *)

Lemma handle_appends (r : Request) (st : Store) :
  is_reset r = false ->
  extends (notifications (fst (handle r st))) (notifications st)
  /\ extends (payments (fst (handle r st))) (payments st)
  /\ extends (documents (fst (handle r st))) (documents st).
Proof.
  intros Hr.
  destruct r as [f body|body|auth|o auth|pid auth|op auth
                |f file auth|auth|body auth]; try discriminate;
    simpl handle; [ | | | | |destruct op; simpl route| | ];
    unfold post_api_register, post_api_login, get_api_me, get_api_plots,
      get_api_plots_plotId, post_api_applications, get_api_applications,
      post_api_applications_id_status, post_api_payments_initiate,
      get_api_notifications, post_api_documents_upload,
      post_api_user_language, authorizeRoles;
    crack; cbn [fst notifications payments documents sendNotification
                with_users with_applications with_notifications
                with_payments with_documents];
    repeat split; first [apply extends_refl | now eexists].
Qed.

(** X14. Notifications, payments and documents are append-only.  Over
    any sequence of requests that does not contain the sample reset, the
    notification, payment and document stores at the start are prefixes
    of the ones at the end: no record is removed, changed or moved. *)
Theorem ledgers_append_only :
  forall (rs : list Request) (st : Store),
    forallb (fun r => negb (is_reset r)) rs = true ->
    extends (notifications (run rs st)) (notifications st)
    /\ extends (payments (run rs st)) (payments st)
    /\ extends (documents (run rs st)) (documents st).
Proof.
  induction rs as [|r rest IH]; intros st H; simpl.
  - repeat split; apply extends_refl.
  - simpl in H. apply Bool.andb_true_iff in H as [Hr Hrest].
    apply Bool.negb_true_iff in Hr.
    destruct (handle_appends r st Hr) as [Hn [Hp Hd]].
    destruct (IH (fst (handle r st)) Hrest) as [Hn' [Hp' Hd']].
    repeat split; eapply extends_trans; eassumption.
Qed.

Lemma ledgers_append_only_witness :
  extends
    (payments
       (run [Engine (updateApplicationStatus (Demo.fresh "" "ntf-3" 3000)
                       "app-1" (Demo.decision "approved" "verified"))
                    (Bearer Demo.officer);
             POST_language (Js.Obj [("language", Js.Str "hi")])
                           (Bearer Demo.citizenA)]
            Demo.store2))
    (payments Demo.store2).
Proof.
  apply (ledgers_append_only
           [Engine (updateApplicationStatus (Demo.fresh "" "ntf-3" 3000)
                      "app-1" (Demo.decision "approved" "verified"))
                   (Bearer Demo.officer);
            POST_language (Js.Obj [("language", Js.Str "hi")])
                          (Bearer Demo.citizenA)]
           Demo.store2).
  reflexivity.
Defined.

(** ** The user store over time *)

#[local] Hint Constructors users_change : workflow.

Lemma handle_users_change (r : Request) (st : Store) :
  users_change (users st) (users (fst (handle r st))).
Proof.
  destruct r as [f body|body|auth|o auth|pid auth|op auth
                |f file auth|auth|body auth];
    simpl handle; [ | | | | |destruct op; simpl route| | | ];
    unfold post_api_register, post_api_login, get_api_me, get_api_plots,
      get_api_plots_plotId, post_api_applications, get_api_applications,
      post_api_applications_id_status, post_api_payments_initiate,
      get_api_notifications, post_api_documents_upload,
      post_api_sample_reset, post_api_user_language, authorizeRoles;
    crack; cbn [fst users sendNotification with_users with_applications
                with_notifications with_payments with_documents];
    auto with workflow.
  - apply (users_joined (users st) f body). assumption.
Qed.

Lemma seed_accounts_change (old new : list User.t) :
  users_change old new -> seed_accounts old -> seed_accounts new.
Proof.
  intros Hc (id1 & id2 & id3 & u1 & u2 & u3 & rest & -> & Hseed & Hrest).
  destruct Hc as [|f body _| |ref l].
  - exists id1, id2, id3, u1, u2, u3, rest. auto.
  - exists id1, id2, id3, u1, u2, u3, (rest ++ [registered_user f body]).
    split; [reflexivity|]. split; [assumption|].
    apply Forall_app. split; [assumption|]. now constructor.
  - exists id1, id2, id3, u1, u2, u3, []. simpl. auto.
  - destruct ref as [|[|[|ref]]]; simpl.
    + exists id1, id2, id3, (User.set_language l u1), u2, u3, rest. auto.
    + exists id1, id2, id3, u1, (User.set_language l u2), u3, rest. auto.
    + exists id1, id2, id3, u1, u2, (User.set_language l u3), rest. auto.
    + exists id1, id2, id3, u1, u2, u3,
             (mutate ref (User.set_language l) rest).
      split; [reflexivity|]. split; [assumption|].
      apply Forall_mutate; [|assumption]. intros x Hx. exact Hx.
Qed.

Lemma reachable_seed_accounts (st : Store) :
  reachable st -> seed_accounts (users st).
Proof.
  induction 1 as [id1 id2 id3|st r _ IH].
  - exists id1, id2, id3. do 3 eexists. exists [].
    split; [reflexivity|]. split; [reflexivity|constructor].
  - eapply seed_accounts_change; [apply handle_users_change|assumption].
Qed.

(** X15. Officers and admins are the seed accounts.  In every store the
    server can reach, the first three users are the demo citizen, the
    land officer and the system admin, with their seed emails and roles,
    and every user after them has role "citizen": no request creates,
    promotes or removes an officer or an admin. *)
Theorem officers_are_seed_accounts :
  forall (st : Store),
    reachable st ->
    exists u1 u2 u3 rest,
      users st = u1 :: u2 :: u3 :: rest
      /\ (User.role u1, User.email u1)
         = ("citizen", Js.Str "citizen@example.com")
      /\ (User.role u2, User.email u2) = ("officer", Js.Str DEMO_OFFICER_EMAIL)
      /\ (User.role u3, User.email u3) = ("admin", Js.Str DEMO_ADMIN_EMAIL)
      /\ Forall (fun u => User.role u = "citizen") rest.
Proof.
  intros st Hreach.
  destruct (reachable_seed_accounts st Hreach)
    as (id1 & id2 & id3 & u1 & u2 & u3 & rest & Hus & Hseed & Hrest).
  exists u1, u2, u3, rest. split; [assumption|].
  unfold seed_users in Hseed. simpl in Hseed.
  inversion Hseed as [[H1 H2 H3 H4 H5 H6 H7 H8 H9 H10 H11 H12 H13 H14 H15]].
  now rewrite H3, H5, H8, H10, H13, H15.
Qed.

Lemma officers_are_seed_accounts_witness :
  exists u1 u2 u3 rest,
    users Stale.registered = u1 :: u2 :: u3 :: rest
    /\ User.role u3 = "admin"
    /\ Forall (fun u => User.role u = "citizen") rest.
Proof.
  destruct (officers_are_seed_accounts Stale.registered)
    as (u1 & u2 & u3 & rest & Hus & _ & _ & H3 & Hrest).
  - apply (reach_request _ (POST_register (Demo.fresh "uid-4" "ntf-1" 1000)
                                          Demo.citizenB_form)).
    apply reach_start.
  - exists u1, u2, u3, rest. split; [exact Hus|].
    split; [congruence|exact Hrest].
Defined.

Lemma firstn_mutate {A : Type} (n i : nat) (f : A -> A) (l : list A) :
  firstn n (mutate i f l) = mutate i f (firstn n l).
Proof.
  revert i l; induction n as [|n IH]; intros i [|x r]; simpl;
    try (now destruct i).
  destruct i as [|i]; simpl; [reflexivity|]. now rewrite IH.
Qed.

Lemma seed_accounts_of_change id1 id2 id3 (old new : list User.t) :
  users_change old new ->
  seed_accounts_of id1 id2 id3 old -> seed_accounts_of id1 id2 id3 new.
Proof.
  unfold seed_accounts_of. intros Hc Hseed.
  destruct Hc as [|f body _| |ref l].
  - assumption.
  - assert (Hlen : 3 <= length old).
    { apply (f_equal (@length User.t)) in Hseed.
      rewrite length_map, length_firstn in Hseed.
      unfold seed_users in Hseed. cbn [length] in Hseed. lia. }
    rewrite firstn_app. replace (3 - length old) with 0 by lia.
    now rewrite firstn_O, app_nil_r.
  - now rewrite firstn_firstn.
  - rewrite firstn_mutate. now rewrite map_mutate_frame.
Qed.

Lemma run_seed_accounts_of id1 id2 id3 (rs : list Request) (st : Store) :
  seed_accounts_of id1 id2 id3 (users st) ->
  seed_accounts_of id1 id2 id3 (users (run rs st)).
Proof.
  revert st; induction rs as [|r rest IH]; intros st H; simpl.
  - assumption.
  - apply IH. eapply seed_accounts_of_change; [|exact H].
    apply handle_users_change.
Qed.

Lemma run_reachable (rs : list Request) (st : Store) :
  reachable st -> reachable (run rs st).
Proof.
  revert st; induction rs as [|r rest IH]; intros st H; simpl.
  - assumption.
  - apply IH. now apply reach_request.
Qed.

(** X16. What a reset brings back.  Let the server start with the seed
    ids [id1], [id2], [id3] and serve any requests.  A reset by an
    admin then leaves exactly the first three user records as they are
    at that moment, the seed plot, and nothing else.  Those three
    records are the seed accounts with their seed ids, names, emails,
    passwords and roles; only their language may differ from the initial
    "en", and it is the language each record had when the reset was
    requested.  Putting the seed users back gives the initial store. *)
Theorem reset_restores_seed_data :
  forall (id1 id2 id3 : string) (rs : list Request) (admin : Payload.t),
    Payload.role admin = "admin" ->
    let st := run rs (initial_store id1 id2 id3) in
    let st' := fst (post_api_sample_reset (Bearer admin) st) in
    st' = mkStore (firstn 3 (users st)) seed_plots [] [] [] []
    /\ map (User.set_language (Js.Str "en")) (users st')
       = seed_users id1 id2 id3
    /\ map User.language (users st') = map User.language (firstn 3 (users st))
    /\ with_users (seed_users id1 id2 id3) st' = initial_store id1 id2 id3.
Proof.
  intros id1 id2 id3 rs admin Hadmin st st'. subst st'.
  assert (Hseed : seed_accounts_of id1 id2 id3 (users st))
    by (apply run_seed_accounts_of; reflexivity).
  assert (Hreach : reachable st)
    by (apply run_reachable, reach_start).
  destruct (reachable_seeded st Hreach) as [Hplots _].
  rewrite (reset_by_admin admin st Hadmin). cbn [fst users].
  rewrite Hplots. cbn [firstn seed_plots].
  split; [reflexivity|]. split; [exact Hseed|]. split; reflexivity.
Qed.

Lemma reset_restores_seed_data_witness :
  let st := run [Engine (submitApplication
                           (Demo.fresh "app-1" "ntf-1" 1000)
                           (Demo.submission "mutation" "PLOT123"
                              [Js.Str "doc-1"]))
                        (Bearer Demo.citizenA);
                 POST_language (Js.Obj [("language", Js.Str "hi")])
                               (Bearer Demo.officer)]
                (initial_store "uid-1" "uid-2" "uid-3") in
  let st' := fst (post_api_sample_reset (Bearer Demo.admin) st) in
  map (User.set_language (Js.Str "en")) (users st')
  = seed_users "uid-1" "uid-2" "uid-3"
  /\ map User.language (users st') = [Js.Str "en"; Js.Str "hi"; Js.Str "en"]
  /\ applications st' = [].
Proof.
  cbv zeta.
  destruct (reset_restores_seed_data "uid-1" "uid-2" "uid-3"
              [Engine (submitApplication
                         (Demo.fresh "app-1" "ntf-1" 1000)
                         (Demo.submission "mutation" "PLOT123"
                            [Js.Str "doc-1"]))
                      (Bearer Demo.citizenA);
               POST_language (Js.Obj [("language", Js.Str "hi")])
                             (Bearer Demo.officer)]
              Demo.admin eq_refl)
    as [Hst [Hseed [Hlang _]]].
  split; [exact Hseed|]. split; [|now rewrite Hst].
  rewrite Hlang. reflexivity.
Defined.

(** *** Emails *)

Lemma distinct_app (l : list Js.value) (e : Js.value) :
  distinct l -> (forall e', In e' l -> Js.strict_eq e' e = false) ->
  distinct (l ++ [e]).
Proof.
  induction l as [|x r IH]; simpl; intros Hd Hnew.
  - split; [intros e' []|exact I].
  - destruct Hd as [Hx Hr]. split.
    + intros e' He'. apply in_app_or in He' as [He'|[<-|[]]]; auto.
    + apply IH; auto.
Qed.

Lemma distinct_firstn (n : nat) (l : list Js.value) :
  distinct l -> distinct (firstn n l).
Proof.
  revert l; induction n as [|n IH]; intros [|x r]; simpl; auto.
  intros [Hx Hr]. split; [|now apply IH].
  intros e' He'. apply Hx. now apply In_firstn in He'.
Qed.

Lemma distinct_nth (l : list Js.value) (i j : nat) (a b : Js.value) :
  distinct l -> nth_error l i = Some a -> nth_error l j = Some b ->
  Js.strict_eq a b = true -> i = j.
Proof.
  revert i j; induction l as [|x r IH]; intros [|i] [|j]; simpl;
    try discriminate; intros [Hx Hr] Ha Hb Heq.
  - reflexivity.
  - inversion Ha; subst. apply nth_error_In in Hb.
    rewrite (Hx b Hb) in Heq. discriminate.
  - inversion Hb; subst. apply nth_error_In in Ha.
    rewrite strict_eq_sym, (Hx a Ha) in Heq. discriminate.
  - f_equal. now apply (IH i j).
Qed.

Lemma distinct_emails_change (old new : list User.t) :
  users_change old new ->
  distinct (map User.email old) -> distinct (map User.email new).
Proof.
  intros [|f body Hnew| |ref l] Hd.
  - assumption.
  - rewrite map_app. apply distinct_app; [assumption|].
    intros e' He'. apply in_map_iff in He' as [u [<- Hu]].
    destruct (Js.strict_eq _ _) eqn:E; [|reflexivity].
    assert (existsb (fun u => Js.strict_eq (User.email u)
                                (Js.get body "email")) old = true)
      by (apply existsb_exists; eauto).
    congruence.
  - rewrite <- firstn_map. now apply distinct_firstn.
  - now rewrite map_mutate_frame.
Qed.

Lemma reachable_distinct_emails (st : Store) :
  reachable st -> distinct (map User.email (users st)).
Proof.
  induction 1 as [id1 id2 id3|st r _ IH].
  - simpl. repeat split; intros e' H;
      repeat (destruct H as [<-|H]; [reflexivity|]); destruct H.
  - eapply distinct_emails_change; [apply handle_users_change|assumption].
Qed.

(** X17. One account per email.  In every store the server can reach, two
    user records whose emails are equal by [===] are the same record. *)
Theorem one_account_per_email :
  forall (st : Store) (i j : nat) (u v : User.t),
    reachable st ->
    nth_error (users st) i = Some u ->
    nth_error (users st) j = Some v ->
    Js.strict_eq (User.email u) (User.email v) = true ->
    i = j.
Proof.
  intros st i j u v Hreach Hu Hv Heq.
  apply (distinct_nth (map User.email (users st)) i j
           (User.email u) (User.email v)).
  - now apply reachable_distinct_emails.
  - now rewrite nth_error_map, Hu.
  - now rewrite nth_error_map, Hv.
  - assumption.
Qed.

Lemma one_account_per_email_witness :
  nth_error (map User.email (users Stale.registered)) 3
  = Some (Js.Str "b@example.com")
  /\ 3 = 3.
Proof.
  split; [reflexivity|].
  apply (one_account_per_email Stale.registered 3 3
           (registered_user (Demo.fresh "uid-4" "ntf-1" 1000)
                            Demo.citizenB_form)
           (registered_user (Demo.fresh "uid-4" "ntf-1" 1000)
                            Demo.citizenB_form)); try reflexivity.
  apply (reach_request _ (POST_register (Demo.fresh "uid-4" "ntf-1" 1000)
                                        Demo.citizenB_form)).
  apply reach_start.
Defined.

(** ** The payment ledger over time *)

Lemma In_mutate_at {A : Type} (j : nat) (f : A -> A) (l : list A) (y : A) :
  In y (mutate j f l) ->
  In y l \/ exists x, nth_error l j = Some x /\ y = f x.
Proof.
  revert j; induction l as [|x r IH]; intros [|j]; simpl; auto.
  - intros [<-|H]; [right; exists x; auto|auto].
  - intros [<-|H]; [auto|]. destruct (IH j H) as [H'|H']; auto.
Qed.

Lemma ledger_submit apps pays app :
  Application.paymentStatus app = "pending" ->
  ledger apps pays -> ledger (apps ++ [app]) pays.
Proof.
  intros Hpend (Hset & Hnd & Hrec). split; [|split].
  - eapply Forall_impl; [|exact Hset].
    intros p (ref & a & Hf & Ha). exists ref, a.
    split; [now apply find_ref_app_found|assumption].
  - assumption.
  - apply Forall_app. split; [assumption|].
    constructor; [|constructor]. intros H. congruence.
Qed.

Lemma ledger_decide apps pays ref entry status :
  ledger apps pays -> ledger (mutate ref (decide entry status) apps) pays.
Proof.
  intros (Hset & Hnd & Hrec). split; [|split].
  - eapply Forall_impl; [|exact Hset].
    intros p (i & a & Hf & Ha).
    exists i, (if (i =? ref)%nat then decide entry status a else a).
    split; [now apply find_ref_mutate_any|].
    now destruct (i =? ref)%nat.
  - assumption.
  - apply Forall_mutate; [|assumption]. intros a Ha. exact Ha.
Qed.

Lemma ledger_pay apps pays ref app (p : Payment.t) :
  find_ref (paid_for p) apps = Some (ref, app) ->
  Application.paymentStatus app <> "completed" ->
  ledger apps pays ->
  ledger (mutate ref (Application.set_paymentStatus "completed") apps)
         (pays ++ [p]).
Proof.
  intros Hfind Hunpaid (Hset & Hnd & Hrec).
  destruct (find_ref_Some _ _ _ _ Hfind) as [Hnth Hkey].
  apply Bool.andb_true_iff in Hkey as [Hid Hmail].
  apply strict_eq_eq in Hid, Hmail.
  split; [|split].
  - apply Forall_app. split.
    + eapply Forall_impl; [|exact Hset].
      intros q (i & a & Hf & Ha).
      exists i, (if (i =? ref)%nat
                 then Application.set_paymentStatus "completed" a else a).
      split; [now apply find_ref_mutate_any|].
      now destruct (i =? ref)%nat.
    + constructor; [|constructor].
      exists ref, (Application.set_paymentStatus "completed" app).
      split; [now apply find_ref_mutate|reflexivity].
  - rewrite map_app. apply NoDup_app; [assumption|repeat constructor; auto|].
    intros k Hk [<-|[]].
    apply in_map_iff in Hk as [q [Hq Hin]].
    rewrite Forall_forall in Hset.
    destruct (Hset q Hin) as (i & a & Hf & Ha).
    unfold payment_key in Hq. inversion Hq as [[Hq1 Hq2]].
    unfold paid_for in Hf, Hfind. rewrite Hq1, Hq2 in Hf.
    rewrite Hfind in Hf. inversion Hf; subst. contradiction.
  - rewrite Forall_forall in *. intros a' Ha' Hdone.
    apply In_mutate_at in Ha' as [Hold|[a [Hat ->]]].
    + destruct (Hrec a' Hold Hdone) as [q [Hq Hkeys]].
      exists q. split; [apply in_or_app; now left|assumption].
    + rewrite Hnth in Hat. inversion Hat; subst a.
      exists p. split; [apply in_or_app; right; now left|].
      split; [now symmetry|now symmetry].
Qed.

Lemma handle_ledger (r : Request) (st : Store) :
  ledger (applications st) (payments st) ->
  ledger (applications (fst (handle r st))) (payments (fst (handle r st))).
Proof.
  intros H.
  destruct r as [f body|body|auth|o auth|pid auth|op auth
                |f file auth|auth|body auth];
    simpl handle; [ | | | | |destruct op; simpl route| | | ];
    unfold post_api_register, post_api_login, get_api_me, get_api_plots,
      get_api_plots_plotId, post_api_applications, get_api_applications,
      post_api_applications_id_status, post_api_payments_initiate,
      get_api_notifications, post_api_documents_upload,
      post_api_sample_reset, post_api_user_language, authorizeRoles;
    crack; cbn [fst applications payments sendNotification with_users
                with_applications with_notifications with_payments
                with_documents];
    try assumption;
    try (now apply ledger_submit);
    try (now apply ledger_decide);
    try (repeat constructor; fail).
  subst.
  match goal with
  | Hf : find_ref _ _ = Some (?i, ?a) |- _ =>
      apply (ledger_pay _ _ i a); [exact Hf| |exact H]
  end.
  now apply String.eqb_neq.
Qed.

Lemma reachable_ledger (st : Store) :
  reachable st -> ledger (applications st) (payments st).
Proof.
  induction 1 as [id1 id2 id3|st r _ IH].
  - repeat constructor.
  - now apply handle_ledger.
Qed.

(** X18. The ledger and the applications agree, and nothing is paid
    twice.  In every store the server can reach: no two payment records
    have the same application id and payer; every payment record belongs
    to a stored application of that id and applicant, whose payment
    status is "completed"; and every application whose payment status is
    "completed" has a payment record with its id and its applicant as
    payer. *)
Theorem ledger_agrees_with_applications :
  forall (st : Store),
    reachable st ->
    NoDup (map payment_key (payments st))
    /\ (forall p, In p (payments st) ->
          exists a, In a (applications st)
                    /\ Js.Str (Application.id a) = Payment.applicationId p
                    /\ Application.applicantEmail a = Payment.paidBy p
                    /\ Application.paymentStatus a = "completed")
    /\ (forall a, In a (applications st) ->
          Application.paymentStatus a = "completed" ->
          exists p, In p (payments st)
                    /\ Payment.applicationId p = Js.Str (Application.id a)
                    /\ Payment.paidBy p = Application.applicantEmail a).
Proof.
  intros st Hreach.
  destruct (reachable_ledger st Hreach) as (Hset & Hnd & Hrec).
  rewrite Forall_forall in Hset, Hrec.
  split; [assumption|]. split.
  - intros p Hp. destruct (Hset p Hp) as (ref & a & Hf & Ha).
    destruct (find_ref_Some _ _ _ _ Hf) as [Hnth Hkey].
    apply Bool.andb_true_iff in Hkey as [Hid Hmail].
    apply strict_eq_eq in Hid, Hmail.
    exists a. split; [now apply nth_error_In in Hnth|auto].
  - intros a Ha. exact (Hrec a Ha).
Qed.

Lemma ledger_agrees_with_applications_witness :
  NoDup (map payment_key (payments Demo.store2))
  /\ length (payments Demo.store2) = 1.
Proof.
  destruct (ledger_agrees_with_applications Demo.store2) as [H _].
  - apply (reach_request _ (Engine (initiateAndCompletePayment
                                      (Demo.fresh "pay-1" "ntf-2" 2000)
                                      (Demo.payment "app-1" 500))
                                   (Bearer Demo.citizenA))).
    apply (reach_request _ (Engine (submitApplication
                                      (Demo.fresh "app-1" "ntf-1" 1000)
                                      (Demo.submission "mutation" "PLOT123"
                                         [Js.Str "doc-1"]))
                                   (Bearer Demo.citizenA))).
    apply reach_start.
  - split; [exact H|reflexivity].
Defined.

(** ** Applications over time *)

Lemma well_formed_decide ps entry status a :
  well_formed ps a -> well_formed ps (decide entry status a).
Proof. intros H. exact H. Qed.

Lemma well_formed_paid ps a :
  well_formed ps a ->
  well_formed ps (Application.set_paymentStatus "completed" a).
Proof.
  intros (Ht & Hp & Hd & _ & Ho). repeat split; auto.
Qed.

Lemma handle_well_formed (r : Request) (st : Store) :
  Forall (well_formed (plots st)) (applications st) ->
  Forall (well_formed (plots (fst (handle r st))))
         (applications (fst (handle r st))).
Proof.
  intros H.
  destruct r as [f body|body|auth|o auth|pid auth|op auth
                |f file auth|auth|body auth];
    simpl handle; [ | | | | |destruct op; simpl route| | | ];
    unfold post_api_register, post_api_login, get_api_me, get_api_plots,
      get_api_plots_plotId, post_api_applications, get_api_applications,
      post_api_applications_id_status, post_api_payments_initiate,
      get_api_notifications, post_api_documents_upload,
      post_api_sample_reset, post_api_user_language, authorizeRoles;
    crack; cbn [fst plots applications sendNotification with_users
                with_applications with_notifications with_payments
                with_documents];
    try assumption;
    try (apply Forall_mutate; [|assumption];
         intros x Hx; first [exact Hx|now apply well_formed_paid]);
    try apply Forall_nil.
  apply Forall_app. split; [assumption|]. constructor; [|constructor].
  match goal with
  | Hm : (_ || _) = false, Ht : negb (Js.includes _ _) = false,
    Hf : find _ _ = Some ?plot |- _ =>
      apply Bool.orb_false_iff in Hm as [_ Hd];
      apply Bool.negb_false_iff in Hd, Ht;
      apply includes_recognized in Ht;
      apply find_some in Hf as [Hin Hown];
      apply Bool.andb_true_iff in Hown as [Hid Hown];
      apply strict_eq_eq in Hid, Hown;
      repeat split; auto; exists plot; auto
  end.
Qed.

Lemma reachable_well_formed (st : Store) :
  reachable st -> Forall (well_formed (plots st)) (applications st).
Proof.
  induction 1 as [id1 id2 id3|st r _ IH].
  - constructor.
  - now apply handle_well_formed.
Qed.

(** X19. Stored applications stay well formed.  In every store the
    server can reach, every application has one of the three recognized
    types, names a plot of the registry whose current owner is its
    applicant, carries a truthy [documents] value, has payment status
    "pending" or "completed", and has no officer assigned: no request
    ever assigns [officerAssigned]. *)
Theorem applications_stay_well_formed :
  forall (st : Store) (a : Application.t),
    reachable st ->
    In a (applications st) ->
    In (Application.applicationType a) recognized_types
    /\ (exists plot, In plot (plots st)
                     /\ Js.Str (Plot.plotId plot) = Application.plotId a
                     /\ Js.Str (Plot.currentOwnerEmail plot)
                        = Application.applicantEmail a)
    /\ Js.truthy (Application.documents a) = true
    /\ (Application.paymentStatus a = "pending"
        \/ Application.paymentStatus a = "completed")
    /\ Application.officerAssigned a = Js.Null.
Proof.
  intros st a Hreach Ha.
  pose proof (reachable_well_formed st Hreach) as H.
  rewrite Forall_forall in H. exact (H a Ha).
Qed.

Lemma applications_stay_well_formed_witness :
  map Application.officerAssigned (applications Demo.store2) = [Js.Null]
  /\ forall a, In a (applications Demo.store2) ->
               Application.officerAssigned a = Js.Null.
Proof.
  split; [reflexivity|]. intros a Ha.
  apply (applications_stay_well_formed Demo.store2 a); [|exact Ha].
  apply (reach_request _ (Engine (initiateAndCompletePayment
                                    (Demo.fresh "pay-1" "ntf-2" 2000)
                                    (Demo.payment "app-1" 500))
                                 (Bearer Demo.citizenA))).
  apply (reach_request _ (Engine (submitApplication
                                    (Demo.fresh "app-1" "ntf-1" 1000)
                                    (Demo.submission "mutation" "PLOT123"
                                       [Js.Str "doc-1"]))
                                 (Bearer Demo.citizenA))).
  apply reach_start.
Defined.



(** ** Callers without a valid token *)

(** X21. Without a valid token only registration and login are open.
    A request to any other route that carries no [Authorization] header
    is answered 401 "Missing token", one whose token fails verification
    401 "Invalid or expired token"; in both cases the store is left
    alone. *)
Theorem anonymous_requests_rejected :
  forall (r : Request) (st : Store),
    (credentials_of r = Some NoHeader ->
     handle r st = (st, Json 401 (ErrorBody "Missing token")))
    /\ (credentials_of r = Some BadToken ->
        handle r st = (st, Json 401 (ErrorBody "Invalid or expired token"))).
Proof.
  intros r st.
  split; intros H;
    (destruct r as [f body|body|auth|o auth|pid auth|op auth
                   |f file auth|auth|body auth];
     simpl in H; try discriminate; inversion H; subst;
     [ | | |destruct op| | | ]; reflexivity).
Qed.

Lemma anonymous_requests_rejected_witness :
  handle (Engine (updateApplicationStatus (Demo.fresh "" "ntf-9" 9000)
                    "app-1" (Demo.decision "approved" ""))
                 NoHeader)
         Demo.store2
  = (Demo.store2, Json 401 (ErrorBody "Missing token")).
Proof.
  apply (anonymous_requests_rejected
           (Engine (updateApplicationStatus (Demo.fresh "" "ntf-9" 9000)
                      "app-1" (Demo.decision "approved" ""))
                   NoHeader)
           Demo.store2).
  reflexivity.
Defined.

(** ** The plot registry over time *)

(** X22. The plot registry never changes, so only the seed owner can
    apply.  In every store the server can reach the registry is the one
    seed plot, owned by citizen@example.com: no request adds a plot or
    changes an owner.  Hence every submission by a caller with another
    email, a newly registered citizen for instance, is rejected with a
    400 and creates nothing. *)
Theorem only_seed_owner_can_apply :
  forall (st : Store) (f : Fresh) (body : Js.value) (user : Payload.t),
    reachable st ->
    plots st = seed_plots
    /\ (Payload.role user = "citizen" ->
        Payload.email user <> Js.Str "citizen@example.com" ->
        exists reason,
          post_api_applications f body (Bearer user) st
          = (st, Json 400 (ErrorBody reason))).
Proof.
  intros st f body user Hreach.
  destruct (reachable_seeded st Hreach) as [Hplots _].
  split; [assumption|]. intros Hrole Hother.
  unfold post_api_applications. as_role Hrole. rewrite Hplots.
  destruct (_ || _); [eauto|]. destruct (negb _); [eauto|].
  cbn [find seed_plots Plot.plotId Plot.currentOwnerEmail].
  destruct (Js.strict_eq (Js.Str "citizen@example.com") (Payload.email user))
    eqn:E.
  - apply strict_eq_eq in E. now destruct Hother.
  - rewrite Bool.andb_false_r. eauto.
Qed.

Lemma only_seed_owner_can_apply_witness :
  exists reason,
    post_api_applications (Demo.fresh "app-2" "ntf-2" 2000)
      (Demo.submission "mutation" "PLOT123" [Js.Str "doc-7"])
      (Bearer Demo.citizenB) Stale.registered
    = (Stale.registered, Json 400 (ErrorBody reason)).
Proof.
  apply (only_seed_owner_can_apply Stale.registered
           (Demo.fresh "app-2" "ntf-2" 2000)
           (Demo.submission "mutation" "PLOT123" [Js.Str "doc-7"])
           Demo.citizenB).
  - apply (reach_request _ (POST_register (Demo.fresh "uid-4" "ntf-1" 1000)
                                          Demo.citizenB_form)).
    apply reach_start.
  - reflexivity.
  - discriminate.
Defined.
